(** * UpShot: the screenshot watcher and its upload pipeline

    A shallow embedding of [upshot.py]: the [Upshot] application delegate
    (start, stop, restart of the directory observer) and the
    [ScreenshotHandler] that classifies a candidate file, uploads it, copies
    the resulting URL and notifies the user.

    Python code with side effects is written in a state-and-exception monad
    over a [world] that holds the files of the screenshot directory, the
    clock, the preference store, the [Upshot] instance and the observer
    threads of the process, together with the log of externally visible
    effects (remote calls, clipboard writes, notifications). *)

From Stdlib Require Import ZArith String Ascii List.
From stdpp Require Import base tactics option list gmap strings.

Open Scope Z_scope.
Open Scope string_scope.

(** ** Exceptions and results *)

(** The exceptions the pipeline can meet: a missing file ([OSError] from
    [os.path.getctime], [IOError] from [open]), a failure of a Conduit call
    (network, authentication), a response without the expected keys. *)
Inductive exn :=
| OSError
| IOError
| ConduitError (reason : string)
| KeyError (key : string).

Inductive result (A : Type) :=
| Ok (a : A)
| Raise (e : exn).
Arguments Ok {A} a.
Arguments Raise {A} e.

(** ** Events of the watchdog library *)

Inductive event :=
| FileCreatedEvent (src_path : string)
| DirCreatedEvent (src_path : string)
| FileMovedEvent (src_path dest_path : string)
| DirMovedEvent (src_path dest_path : string)
| FileModifiedEvent (src_path : string)
| FileDeletedEvent (src_path : string).

(** ** Externally visible effects *)

(** The only callback the program ever registers on a notification is
    [ScreenshotHandler.notify_callback]. *)
Inductive callback := notify_callback_ref.

Inductive effect :=
| Conduit (method : string) (argument : string)
| Pbcopy (text : string)
| Growl (title body : string) (context : option string) (cb : option callback)
| SelectInFinder (filepath : string)
| Terminate.

(** ** The world *)

(** The two images of the status bar item, [image_paths]. *)
Inductive icon := icon16 | icon16_off.

(** Timestamps are counted in whole seconds. *)
Record file := File {
  ctime : Z;          (* os.path.getctime *)
  content : string;   (* the bytes of the file (a Python 2 str) *)
}.

(** An [Observer] object of watchdog: the directory it was scheduled on and
    the state of its thread. *)
Inductive thread_state := Unstarted | Alive | Stopping | Joined.

Record observer_obj := ObserverObj {
  watch : option string;
  thread : thread_state;
}.

(** The dictionary that [file.info] answers with, as far as it is read. *)
Record response := Response {
  uri : option string;
  objectName : option string;
}.

(** What the program imports and does not define: [lib.utils],
    [lib.phabricator] and [base64]. *)
Record collaborators := Collaborators {
  is_screenshot_of : gmap string file → string → bool;
  rescale : string → string;
  b64encode : string → string;
  file_upload : string → result string;
  file_info : string → result response;
}.

Record world := World {
  lib : collaborators;
  SCREENSHOT_DIR : string;
  fs : gmap string file;
  clock : Z;                       (* time.time() *)
  retinascale : bool;              (* utils.get_pref('retinascale') *)
  observer : option nat;           (* Upshot.observer: a reference, or None *)
  statusitem : option icon;        (* Upshot.statusitem and the image it shows *)
  observers : list observer_obj;   (* the Observer objects created so far *)
  trace : list effect;             (* effects so far, oldest first *)
}.

Definition set_fs (m : gmap string file) (w : world) : world :=
  World (lib w) (SCREENSHOT_DIR w) m (clock w) (retinascale w)
        (observer w) (statusitem w) (observers w) (trace w).

Definition set_observer (o : option nat) (w : world) : world :=
  World (lib w) (SCREENSHOT_DIR w) (fs w) (clock w) (retinascale w)
        o (statusitem w) (observers w) (trace w).

Definition set_statusitem (i : option icon) (w : world) : world :=
  World (lib w) (SCREENSHOT_DIR w) (fs w) (clock w) (retinascale w)
        (observer w) i (observers w) (trace w).

Definition set_observers (l : list observer_obj) (w : world) : world :=
  World (lib w) (SCREENSHOT_DIR w) (fs w) (clock w) (retinascale w)
        (observer w) (statusitem w) l (trace w).

Definition emit (e : effect) (w : world) : world :=
  World (lib w) (SCREENSHOT_DIR w) (fs w) (clock w) (retinascale w)
        (observer w) (statusitem w) (observers w) (trace w ++ [e]).

(** ** The monad of Python statements *)

Definition M (A : Type) : Type := world → result A * world.

Global Instance M_ret : MRet M := λ A a w, (Ok a, w).

Global Instance M_bind : MBind M := λ A B k m w,
  match m w with
  | (Ok a, w') => k a w'
  | (Raise e, w') => (Raise e, w')
  end.

Definition raise {A} (e : exn) : M A := λ w, (Raise e, w).
Definition gets {A} (f : world → A) : M A := λ w, (Ok (f w), w).
Definition modify (f : world → world) : M unit := λ w, (Ok tt, f w).
Definition of_result {A} (r : result A) : M A := λ w, (r, w).

(** A bare [return], or a statement that does nothing. *)
Definition skip : M unit := mret tt.

(** The world a statement leaves behind, and the effects it added. *)
Definition after {A} (m : M A) (w : world) : world := snd (m w).
Definition outcome {A} (m : M A) (w : world) : result A := fst (m w).

(** ** Constants of [upshot.py] *)

Definition TIME_THRESHOLD : Z := 15.

(** ** Library primitives *)

Module os_path.

(** [posixpath.basename]: what follows the last slash. *)
Fixpoint basename_from (candidate p : string) : string :=
  match p with
  | EmptyString => candidate
  | String c rest =>
      if Ascii.eqb c "/" then basename_from rest rest
      else basename_from candidate rest
  end.

Definition basename (p : string) : string := basename_from p p.

Definition getctime (f : string) : M Z := λ w,
  match fs w !! f with
  | Some fl => (Ok (ctime fl), w)
  | None => (Raise OSError, w)
  end.

End os_path.

(** [str.startswith]. *)
Definition startswith (s pre : string) : bool := String.prefix pre s.

Definition time_time : M Z := gets clock.

(** [open(f, "rb")] followed by [read()]. *)
Definition open_read (f : string) : M string := λ w,
  match fs w !! f with
  | Some fl => (Ok (content fl), w)
  | None => (Raise IOError, w)
  end.

Module utils.

Definition is_screenshot (f : string) : M bool :=
  gets (λ w, is_screenshot_of (lib w) (fs w) f).

Definition get_pref_retinascale : M bool := gets retinascale.

(** Modelled from the spec: [lib/utils.py] is not part of the sources;
    [resampleRetinaImage(source, target)] is the image-rescale transform,
    which reads the image at [source] and writes the rescaled image to
    [target]. *)
Definition resampleRetinaImage (source target : string) : M unit := λ w,
  match fs w !! source with
  | Some fl =>
      (Ok tt, set_fs (<[target := File (ctime fl) (rescale (lib w) (content fl))]> (fs w)) w)
  | None => (Raise OSError, w)
  end.

Definition pbcopy (text : string) : M unit := modify (emit (Pbcopy text)).

End utils.

(** The client [Phabricator()] of [lib.phabricator]; building it is not an
    effect of the model. *)
Module PHAB.

(** [PHAB.file.upload(data_base64=...)]: one remote call, whose response
    is the PHID of the new file. *)
Definition upload (data_base64 : string) : M string :=
  modify (emit (Conduit "file.upload" data_base64));;
  w ← gets lib; of_result (file_upload w data_base64).

(** [PHAB.file.info(phid=...)]: one remote call, whose response is a
    dictionary. *)
Definition info (phid : string) : M response :=
  modify (emit (Conduit "file.info" phid));;
  w ← gets lib; of_result (file_info w phid).

End PHAB.

(** [result['uri']], [result['objectName']]. *)
Definition getitem (key : string) (v : option string) : M string :=
  match v with
  | Some s => mret s
  | None => raise (KeyError key)
  end.

Definition growl_notify (title body : string) (context : option string)
    (cb : option callback) : M unit :=
  modify (emit (Growl title body context cb)).

(** ** The watchdog observer

    What the program relies on from [watchdog.observers.Observer]: an
    observer owns one thread; [schedule] registers the handler on a
    directory, [start] starts the thread, [stop] asks the thread to finish
    and removes every watch of the observer, and [join] returns once the
    thread has finished.  An event of a watched directory is dispatched to
    the handler only by a thread that is alive.

    The model follows the runs in which these calls return.  In the library
    [start] raises when the directory does not exist and [join] raises on a
    thread that was never started; neither is modelled, and what becomes of
    a thread whose handler raised is left open. *)
Module watchdog.

Definition set_thread (t : thread_state) (o : observer_obj) : observer_obj :=
  ObserverObj (watch o) t.

Definition Observer : M nat := λ w,
  (Ok (length (observers w)),
   set_observers (observers w ++ [ObserverObj None Unstarted]) w).

Definition schedule (o : nat) (path : string) : M unit :=
  modify (λ w, set_observers
    (alter (λ ob, ObserverObj (Some path) (thread ob)) o (observers w)) w).

Definition start (o : nat) : M unit :=
  modify (λ w, set_observers (alter (set_thread Alive) o (observers w)) w).

Definition stop_thread (t : thread_state) : thread_state :=
  match t with Alive => Stopping | _ => t end.

Definition join_thread (t : thread_state) : thread_state :=
  match t with Stopping => Joined | _ => t end.

(** [stop]: the thread is asked to finish and the observer is unscheduled
    from every directory. *)
Definition stop (o : nat) : M unit :=
  modify (λ w, set_observers
    (alter (λ ob, ObserverObj None (stop_thread (thread ob))) o (observers w)) w).

Definition join (o : nat) : M unit :=
  modify (λ w, set_observers
    (alter (λ ob, set_thread (join_thread (thread ob)) ob) o (observers w)) w).

Definition delivers (ob : observer_obj) : bool :=
  match watch ob, thread ob with
  | Some _, Alive => true
  | _, _ => false
  end.

End watchdog.

(** ** [class ScreenshotHandler(FileSystemEventHandler)] *)

Definition nl : string := String (ascii_of_nat 10) EmptyString.

Module ScreenshotHandler.

(** The text of the notification: ['Your URL is: %s\nPHID is: %s\nFILE is:
    %s\nClick here to view file.' % (url, phid, object_name)]. *)
Definition notification_body (url phid object_name : string) : string :=
  "Your URL is: " +:+ url +:+ nl +:+
  "PHID is: " +:+ phid +:+ nl +:+
  "FILE is: " +:+ object_name +:+ nl +:+
  "Click here to view file.".

Definition notify_callback (filepath : string) : M unit :=
  modify (emit (SelectInFinder filepath)).

Definition handle_screenshot_candidate (f : string) : M unit :=
  created ← os_path.getctime f;
  now ← time_time;
  if bool_decide (created - now > TIME_THRESHOLD) then skip else
  shot ← utils.is_screenshot f;
  if negb shot then skip else
  scale ← utils.get_pref_retinascale;
  (if (scale : bool) then utils.resampleRetinaImage f f else skip);;
  data ← open_read f;
  encoded_string ← gets (λ w, b64encode (lib w) data);
  phid ← PHAB.upload encoded_string;
  result ← PHAB.info phid;
  url ← getitem "uri" (uri result);
  object_name ← getitem "objectName" (objectName result);
  utils.pbcopy url;;
  growl_notify "Screenshot shared!" (notification_body url phid object_name)
               (Some f) (Some notify_callback_ref).

Definition on_created (e : event) : M unit :=
  match e with
  | FileCreatedEvent f =>
      if negb (startswith (os_path.basename f) ".")
      then handle_screenshot_candidate f
      else skip
  | _ => skip
  end.

Definition on_moved (e : event) : M unit :=
  match e with
  | FileMovedEvent _ dest_path => handle_screenshot_candidate dest_path
  | _ => skip
  end.

(** [FileSystemEventHandler.dispatch]: the method is chosen by the kind of
    the event; [on_modified] and [on_deleted] are not overridden. *)
Definition dispatch (e : event) : M unit :=
  match e with
  | FileCreatedEvent _ | DirCreatedEvent _ => on_created e
  | FileMovedEvent _ _ | DirMovedEvent _ _ => on_moved e
  | FileModifiedEvent _ | FileDeletedEvent _ => skip
  end.

End ScreenshotHandler.

(** The observer thread [o] takes one event of its directory and hands it
    to the handler; the outcome of the handler is what the thread gets
    back. *)
Definition deliver (o : nat) (e : event) : M unit := λ w,
  match observers w !! o with
  | Some ob =>
      if watchdog.delivers ob then ScreenshotHandler.dispatch e w
      else (Ok tt, w)
  | None => (Ok tt, w)
  end.

(** The user clicks a notification: Growl calls the registered callback on
    the context of the notification. *)
Definition click (n : effect) : M unit :=
  match n with
  | Growl _ _ (Some context) (Some notify_callback_ref) =>
      ScreenshotHandler.notify_callback context
  | _ => skip
  end.

(** ** [class Upshot(NSObject)] *)

Module Upshot.

(** [build_menu], as far as the pipeline is concerned: the status item
    exists from now on and shows the icon ['icon16']. *)
Definition build_menu : M unit := modify (set_statusitem (Some icon16)).

(** The [iconset] preference only changes how the image is drawn. *)
Definition update_menu : M unit := λ w,
  match statusitem w with
  | None => (Ok tt, w)
  | Some _ =>
      let running := bool_decide (observer w ≠ None) in
      (Ok tt, set_statusitem (Some (if running then icon16 else icon16_off)) w)
  end.

Definition startListening_ : M unit :=
  o ← watchdog.Observer;
  modify (set_observer (Some o));;
  dir ← gets SCREENSHOT_DIR;
  watchdog.schedule o dir;;
  watchdog.start o;;
  update_menu;;
  growl_notify "UpShot started" "and listening for screenshots!" None None.

Definition stopListening_ : M unit :=
  cur ← gets observer;
  match cur with
  | Some o =>
      watchdog.stop o;;
      watchdog.join o;;
      modify (set_observer None);;
      growl_notify "UpShot paused" "Not listening for screenshots for now!"
                   None None
  | None => skip
  end;;
  update_menu.

Definition restart_ : M unit := stopListening_;; startListening_.

Definition quit_ : M unit := stopListening_;; modify (emit Terminate).

Definition applicationDidFinishLaunching_ : M unit :=
  build_menu;; startListening_.

End Upshot.

(** The process before [applicationDidFinishLaunching_]. *)
Definition boot (c : collaborators) (dir : string) (files : gmap string file)
    (now : Z) (scale : bool) : world :=
  World c dir files now scale None None [] [].

(** ** Observations on a world *)

(** The watch sessions of the process: the observers whose thread delivers
    events to the handler. *)
Definition sessions (w : world) : nat :=
  length (List.filter watchdog.delivers (observers w)).

(** Every observer that still delivers events is the one the application
    holds in [self.observer]. *)
Definition single_session (w : world) : Prop :=
  ∀ i ob, observers w !! i = Some ob → watchdog.delivers ob = true →
          observer w = Some i.

Definition is_upload (e : effect) : bool :=
  match e with
  | Conduit method _ => String.eqb method "file.upload"
  | _ => false
  end.

Definition is_remote_call (e : effect) : bool :=
  match e with Conduit _ _ => true | _ => false end.

Definition upload_attempts (t : list effect) : nat :=
  length (List.filter is_upload t).

Definition remote_calls (t : list effect) : nat :=
  length (List.filter is_remote_call t).

(** What the status bar item shows once the menu is updated in the idle
    state. *)
Definition paused_icon (w : world) : option icon :=
  match statusitem w with Some _ => Some icon16_off | None => None end.

(** The effects a statement adds to the log. *)
Definition added {A} (m : M A) (w : world) : list effect :=
  drop (length (trace w)) (trace (after m w)).

(** [sub] occurs in [s]. *)
Definition occurs_in (sub s : string) : Prop :=
  ∃ pre suf, s = pre +:+ sub +:+ suf.

(** The file a candidate is read from once the optional rescaling is done,
    and the text that is sent to [file.upload]. *)
Definition staged (f : string) (fl : file) (w : world) : world :=
  if retinascale w
  then set_fs (<[f := File (ctime fl) (rescale (lib w) (content fl))]> (fs w)) w
  else w.

Definition payload (fl : file) (w : world) : string :=
  b64encode (lib w)
    (if retinascale w then rescale (lib w) (content fl) else content fl).

(** A candidate that passes the three checks of
    [handle_screenshot_candidate]: the file exists, the age test does not
    fire, and [utils.is_screenshot] answers yes. *)
Definition accepted (f : string) (fl : file) (w : world) : Prop :=
  fs w !! f = Some fl ∧
  ¬ (ctime fl - clock w > TIME_THRESHOLD) ∧
  is_screenshot_of (lib w) (fs w) f = true.

(** The path that an event hands over to [handle_screenshot_candidate], if
    it hands over any: the source of a file creation with a visible name,
    the destination of a file move. *)
Definition candidate_of (e : event) : option string :=
  match e with
  | FileCreatedEvent f =>
      if startswith (os_path.basename f) "." then None else Some f
  | FileMovedEvent _ dest_path => Some dest_path
  | _ => None
  end.

(** The effects of the upload pipeline: remote calls, clipboard writes and
    notifications. *)
Definition is_pipeline_effect (e : effect) : bool :=
  match e with
  | Conduit _ _ | Pbcopy _ | Growl _ _ _ _ => true
  | SelectInFinder _ | Terminate => false
  end.

(** The status bar item, once it is built, shows the running icon exactly
    when [self.observer] is set. *)
Definition icon_tells_state (w : world) : Prop :=
  match statusitem w with
  | None => True
  | Some i => i = match observer w with Some _ => icon16 | None => icon16_off end
  end.

(** The two notifications of the lifecycle. *)
Definition started_note : effect :=
  Growl "UpShot started" "and listening for screenshots!" None None.

Definition paused_note : effect :=
  Growl "UpShot paused" "Not listening for screenshots for now!" None None.

(** ** Concrete worlds used in the examples *)

Module Demo.

Definition conduit (up : result string) : collaborators :=
  Collaborators (λ _ _, true)
    (λ s, "half:" +:+ s) (λ s, "b64:" +:+ s)
    (λ _, up)
    (λ _, Ok (Response (Some "http://phab/F7") (Some "F7"))).

Definition online : collaborators := conduit (Ok "PHID-FILE-7").
Definition offline : collaborators := conduit (Raise (ConduitError "network")).

Definition desktop : string := "/Users/u/Desktop".
Definition shot : string := "/Users/u/Desktop/shot.png".
Definition hidden : string := "/Users/u/Desktop/.tmp_shot.png".

(** [shot.png] was created two seconds ago. *)
Definition fresh (c : collaborators) (scale : bool) : world :=
  boot c desktop {[ shot := File 998 "PNG" ]} 1000 scale.

(** [shot.png] was created a thousand seconds ago. *)
Definition stale : world :=
  boot online desktop {[ shot := File 0 "PNG" ]} 1000 false.

(** A hidden file that the screenshot test accepts. *)
Definition dotted : world :=
  boot online desktop {[ hidden := File 998 "PNG" ]} 1000 false.

Definition shared : effect :=
  Growl "Screenshot shared!"
        (ScreenshotHandler.notification_body "http://phab/F7" "PHID-FILE-7" "F7")
        (Some shot) (Some notify_callback_ref).

End Demo.

(** * [Preferences.py]

    The preferences window and the defaults.  The store of preferences is a
    dictionary from keys to Python values, of which the program uses
    booleans and strings; the login items of the session are the list of
    their URLs. *)
Module Preferences.

Inductive value := VBool (b : bool) | VStr (s : string).

Global Instance value_eq_dec : EqDecision value.
Proof. solve_decision. Defined.

Definition DEFAULTS : list (string * value) :=
  [("launchAtStartup", VBool true);
   ("iconset", VStr "default");
   ("copyonly", VBool false);
   ("retinascale", VBool false);
   ("share_format", VStr "long")].

(** The outlets of [PreferencesWindowController]: the state of a check box
    and the tag of the selected cell of a radio group are integers. *)
Record outlets := Outlets {
  launchAtStartup : Z;
  iconset : Z;
  copyonly : Z;
  retinascale : Z;
  url_select : Z;
}.

Record state := State {
  store : gmap string value;   (* the preferences of the application *)
  login_items : list string;   (* the session login items, by URL *)
  bundle_url : string;         (* NSBundle.mainBundle().bundleURL() *)
  window : outlets;
  delegate : world;            (* NSApplication.sharedApplication().delegate() *)
}.

Definition set_store (m : gmap string value) (s : state) : state :=
  State m (login_items s) (bundle_url s) (window s) (delegate s).

Definition set_login_items (l : list string) (s : state) : state :=
  State (store s) l (bundle_url s) (window s) (delegate s).

Definition set_window (o : outlets) (s : state) : state :=
  State (store s) (login_items s) (bundle_url s) o (delegate s).

Definition set_delegate (w : world) (s : state) : state :=
  State (store s) (login_items s) (bundle_url s) (window s) w.

(** Python's [bool(v)]; an unset preference reads as [None]. *)
Definition truthy (v : option value) : bool :=
  match v with
  | None => false
  | Some (VBool b) => b
  | Some (VStr s) => negb (String.eqb s "")
  end.

(** The argument of [setState_] is an integer: [True] and [False] are
    accepted as 1 and 0, a string or [None] is refused with an exception. *)
Definition as_state (v : option value) : option Z :=
  match v with
  | Some (VBool b) => Some (if b then 1 else 0)
  | _ => None
  end.

(** [bool(box.state())]. *)
Definition checked (st : Z) : bool := negb (Z.eqb st 0).

(** Modelled from the spec: [lib/utils.py] is not part of the sources;
    [get_pref] and [set_pref] are the settings store, [get(key, default) ->
    value] and [set(key, value)], and with [setdefault] a default that is
    returned for an unset key is written to the store as well. *)
Definition get_pref (key : string) (default : option value) (setdefault : bool)
    (m : gmap string value) : option value * gmap string value :=
  match m !! key with
  | Some v => (Some v, m)
  | None =>
      (default,
       match default with
       | Some d => if setdefault then <[key := d]> m else m
       | None => m
       end)
  end.

Definition set_pref (key : string) (v : value) (s : state) : state :=
  set_store (<[key := v]> (store s)) s.

(** [item_in_login_items]: the first login item that resolves to the URL of
    the application, or [None]. *)
Definition item_in_login_items (s : state) : option nat :=
  fst <$> list_find (λ u, u = bundle_url s) (login_items s).

(** [launch_at_startup(switch)]: insert the application after the last
    login item, or remove the item found for it, if any. *)
Definition launch_at_startup (switch : bool) (s : state) : state :=
  if switch then set_login_items (login_items s ++ [bundle_url s]) s
  else
    match item_in_login_items s with
    | Some this_app => set_login_items (delete this_app (login_items s)) s
    | None => s
    end.

(** [set_defaults]: every default is read with [setdefault=True]; then the
    login items are brought in line with ['launchAtStartup'] when they
    disagree with it. *)
Definition fill_defaults (m : gmap string value) : gmap string value :=
  foldl (λ m kv, snd (get_pref (fst kv) (Some (snd kv)) true m)) m DEFAULTS.

Definition set_defaults (s : state) : state :=
  let s := set_store (fill_defaults (store s)) s in
  let should_start := fst (get_pref "launchAtStartup" None false (store s)) in
  if bool_decide (Some (VBool (bool_decide (item_in_login_items s ≠ None)))
                  ≠ should_start)
  then launch_at_startup (truthy should_start) s
  else s.

(** [get_pref(key)], with no default. *)
Definition read (key : string) (s : state) : option value :=
  fst (get_pref key None false (store s)).

(** [updateDisplay]: the window is filled from the store.  [None] stands
    for the exception of a [setState_] that refuses its argument. *)
Definition updateDisplay (s : state) : option state :=
  launch ← as_state (read "launchAtStartup" s);
  let tag := if bool_decide (read "iconset" s = Some (VStr "grayscale"))
             then 1 else 0 in
  copy ← as_state (read "copyonly" s);
  copy' ← as_state (read "retinascale" s);
  let share_format := read "share_format" s in
  let url :=
    if bool_decide (share_format = Some (VStr "long")) then 0
    else if bool_decide (share_format = Some (VStr "short")) then 1
    else url_select (window s) in
  Some (set_window (Outlets launch tag copy' (retinascale (window s)) url) s).

(** [saveSettings_]: the store is written from the window. *)
Definition saveSettings_ (s : state) : state :=
  let s := set_pref "launchAtStartup" (VBool (checked (launchAtStartup (window s)))) s in
  let s := launch_at_startup (checked (launchAtStartup (window s))) s in
  let s := if Z.eqb (iconset (window s)) 1
           then set_pref "iconset" (VStr "grayscale") s
           else set_pref "iconset" (VStr "default") s in
  let s := set_delegate (after Upshot.update_menu (delegate s)) s in
  let s := set_pref "copyonly" (VBool (checked (copyonly (window s)))) s in
  let s := set_pref "retinascale" (VBool (checked (retinascale (window s)))) s in
  if Z.eqb (url_select (window s)) 0 then set_pref "share_format" (VStr "long") s
  else if Z.eqb (url_select (window s)) 1 then set_pref "share_format" (VStr "short") s
  else s.

End Preferences.

(** * Properties *)

Import ScreenshotHandler.

(** ** Running [handle_screenshot_candidate] *)

Ltac unfold_m :=
  unfold mbind, M_bind, mret, M_ret, skip, gets, modify, raise, of_result.

Section Handle.

Variables (w : world) (f : string).

Lemma handle_missing :
  fs w !! f = None →
  handle_screenshot_candidate f w = (Raise OSError, w).
Proof.
  intros Hf. unfold handle_screenshot_candidate, os_path.getctime.
  unfold_m. by rewrite Hf.
Qed.

Lemma handle_from_the_future fl :
  fs w !! f = Some fl →
  ctime fl - clock w > TIME_THRESHOLD →
  handle_screenshot_candidate f w = (Ok tt, w).
Proof.
  intros Hf Hage.
  unfold handle_screenshot_candidate, os_path.getctime, time_time.
  unfold_m. rewrite Hf. by rewrite bool_decide_eq_true_2.
Qed.

Lemma handle_not_a_screenshot fl :
  fs w !! f = Some fl →
  is_screenshot_of (lib w) (fs w) f = false →
  handle_screenshot_candidate f w = (Ok tt, w).
Proof.
  intros Hf Hshot.
  unfold handle_screenshot_candidate, os_path.getctime, time_time,
    utils.is_screenshot.
  unfold_m. rewrite Hf. case_bool_decide; [done|]. by rewrite Hshot.
Qed.

(** Past the checks: the optional rescaling, then the two Conduit calls,
    the clipboard and the notification, each step only if the one before
    it returned. *)
Lemma handle_accepted fl :
  accepted f fl w →
  handle_screenshot_candidate f w =
    let w1 := emit (Conduit "file.upload" (payload fl w)) (staged f fl w) in
    match file_upload (lib w) (payload fl w) with
    | Raise x => (Raise x, w1)
    | Ok phid =>
        let w2 := emit (Conduit "file.info" phid) w1 in
        match file_info (lib w) phid with
        | Raise x => (Raise x, w2)
        | Ok r =>
            match uri r, objectName r with
            | None, _ => (Raise (KeyError "uri"), w2)
            | Some _, None => (Raise (KeyError "objectName"), w2)
            | Some url, Some object_name =>
                (Ok tt,
                 emit (Growl "Screenshot shared!"
                             (notification_body url phid object_name)
                             (Some f) (Some notify_callback_ref))
                      (emit (Pbcopy url) w2))
            end
        end
    end.
Proof.
  intros (Hf & Hage & Hshot).
  unfold handle_screenshot_candidate, os_path.getctime, time_time,
    utils.is_screenshot, utils.get_pref_retinascale,
    utils.resampleRetinaImage, open_read, PHAB.upload, PHAB.info,
    utils.pbcopy, growl_notify, getitem, payload, staged.
  unfold_m. rewrite Hf. rewrite bool_decide_eq_false_2 by done.
  rewrite Hshot. cbn [negb].
  destruct (retinascale w) eqn:Hscale; cbn.
  - rewrite Hf. cbn. rewrite lookup_insert_eq. cbn.
    destruct (file_upload _ _) as [phid|x]; [|done].
    destruct (file_info _ _) as [[[url|] [name|]]|x]; done.
  - rewrite Hf. cbn.
    destruct (file_upload _ _) as [phid|x]; [|done].
    destruct (file_info _ _) as [[[url|] [name|]]|x]; done.
Qed.

End Handle.

(** ** The age test (claim C1) *)

(** The test of the source, [getctime(f) - time() > TIME_THRESHOLD], fires
    only for a creation time in the future: whatever was created in the
    past, however long ago, passes it. *)
Lemma age_test_passes_old_files (created now : Z) :
  created < now - TIME_THRESHOLD → ¬ (created - now > TIME_THRESHOLD).
Proof. unfold TIME_THRESHOLD. lia. Qed.

Lemma old_screenshot_is_accepted (w : world) (f : string) (fl : file) :
  fs w !! f = Some fl →
  ctime fl < clock w - TIME_THRESHOLD →
  is_screenshot_of (lib w) (fs w) f = true →
  accepted f fl w.
Proof.
  intros Hf Hold Hshot. repeat split; [done| |done].
  by apply age_test_passes_old_files.
Qed.

(** C1, at a file created a thousand seconds ago.  The claim asks for a
    rejection without an upload attempt; the code, whose age test
    subtracts the wrong way round, uploads the file, copies the URL and
    notifies. *)
Theorem stale_screenshot_is_uploaded :
  fs Demo.stale !! Demo.shot = Some (File 0 "PNG") ∧
  0 < clock Demo.stale - TIME_THRESHOLD ∧
  outcome (handle_screenshot_candidate Demo.shot) Demo.stale = Ok tt ∧
  trace (after (handle_screenshot_candidate Demo.shot) Demo.stale) =
    [Conduit "file.upload" "b64:PNG"; Conduit "file.info" "PHID-FILE-7";
     Pbcopy "http://phab/F7"; Demo.shared].
Proof. repeat split; vm_compute; reflexivity. Qed.

(** ** Starting twice (claim C2) *)

Lemma alter_last {A} (g : A → A) (l : list A) (x : A) :
  alter g (length l) (l ++ [x])%list = (l ++ [g x])%list.
Proof.
  rewrite alter_app_r_alt by lia. by rewrite Nat.sub_diag.
Qed.

Lemma start_run (w : world) :
  Upshot.startListening_ w =
    (Ok tt,
     World (lib w) (SCREENSHOT_DIR w) (fs w) (clock w) (retinascale w)
       (Some (length (observers w)))
       (match statusitem w with Some _ => Some icon16 | None => None end)
       (observers w ++ [ObserverObj (Some (SCREENSHOT_DIR w)) Alive])
       (trace w ++ [Growl "UpShot started" "and listening for screenshots!"
                          None None])).
Proof.
  unfold Upshot.startListening_, watchdog.Observer, watchdog.schedule,
    watchdog.start, Upshot.update_menu, growl_notify.
  unfold_m. cbn. rewrite !alter_last. cbn.
  destruct (statusitem w) eqn:Hs;
    unfold emit, set_statusitem, set_observers, set_observer; cbn;
    by rewrite ?Hs.
Qed.

Lemma sessions_snoc (l : list observer_obj) (ob : observer_obj) :
  length (List.filter watchdog.delivers (l ++ [ob])) =
  (length (List.filter watchdog.delivers l) +
   (if watchdog.delivers ob then 1 else 0))%nat.
Proof.
  rewrite List.filter_app, length_app. cbn.
  by destruct (watchdog.delivers ob).
Qed.

(** C2 as stated fails: the application is watching (observer 0), start is
    called again, no error is raised and two sessions are active. *)
Lemma second_start_second_session :
  let w := after Upshot.applicationDidFinishLaunching_ (Demo.fresh Demo.online false) in
  observer w = Some 0%nat ∧ sessions w = 1%nat ∧
  outcome Upshot.startListening_ w = Ok tt ∧
  sessions (after Upshot.startListening_ w) = 2%nat ∧
  ¬ (sessions (after Upshot.startListening_ w) ≤ 1)%nat.
Proof. vm_compute. repeat split; try reflexivity. lia. Qed.

(** C2, amended: start has no guard against a session that is already
    active: it never looks at [self.observer], so it behaves the same
    whether or not an observer is held, and no error is raised for being
    already watching.  Whenever it returns, it has created a new observer on
    the screenshot directory, started it and stored it in [self.observer];
    the observers that existed before are left as they were, so the number
    of active sessions has grown by one, also when a session was active
    already. *)
Theorem start_adds_a_session (w : world) :
  (∀ held, Upshot.startListening_ (set_observer held w) = Upshot.startListening_ w) ∧
  (outcome Upshot.startListening_ w = Ok tt →
   observer (after Upshot.startListening_ w) = Some (length (observers w)) ∧
   observers (after Upshot.startListening_ w) !! length (observers w) =
     Some (ObserverObj (Some (SCREENSHOT_DIR w)) Alive) ∧
   (∀ i ob, observers w !! i = Some ob →
            observers (after Upshot.startListening_ w) !! i = Some ob) ∧
   sessions (after Upshot.startListening_ w) = S (sessions w)).
Proof.
  split.
  - intros held. by rewrite !start_run.
  - intros _. unfold after, sessions. rewrite start_run. cbn.
    repeat split.
    + by rewrite lookup_app_r, Nat.sub_diag.
    + intros i ob Hi. by apply lookup_app_l_Some.
    + rewrite sessions_snoc. cbn. lia.
Qed.

Lemma start_adds_a_session_witness :
  let w := after Upshot.applicationDidFinishLaunching_ (Demo.fresh Demo.online false) in
  observers (after Upshot.startListening_ w) !! 0%nat =
    Some (ObserverObj (Some Demo.desktop) Alive) ∧
  sessions (after Upshot.startListening_ w) = 2%nat.
Proof.
  intros w.
  destruct (proj2 (start_adds_a_session w)) as (_ & _ & Hkept & Hcount);
    [reflexivity|].
  split; [apply Hkept; reflexivity | exact Hcount].
Defined.

(** ** Hidden files (claim C3) *)

(** C3 as stated fails for a move event: the destination carries a hidden
    name, and the file is uploaded all the same. *)
Lemma hidden_destination_is_uploaded :
  let e := FileMovedEvent Demo.shot Demo.hidden in
  startswith (os_path.basename Demo.hidden) "." = true ∧
  outcome (on_moved e) Demo.dotted = Ok tt ∧
  upload_attempts (added (on_moved e) Demo.dotted) = 1%nat ∧
  added (dispatch e) Demo.dotted ≠ [].
Proof. vm_compute. repeat split; try reflexivity. discriminate. Qed.

(** C3, amended: the test on the leading dot belongs to [on_created] only.
    A file-created event for a hidden name is dropped before anything is
    looked at, so whatever the age of the file and whatever the world, the
    handler returns and changes nothing.  A file-moved event is handed to
    [handle_screenshot_candidate] with its destination path as it is. *)
Theorem hidden_created_is_skipped (f : string) :
  startswith (os_path.basename f) "." = true →
  (∀ w, on_created (FileCreatedEvent f) w = (Ok tt, w)) ∧
  (∀ w, dispatch (FileCreatedEvent f) w = (Ok tt, w)) ∧
  (∀ src w, on_moved (FileMovedEvent src f) w = handle_screenshot_candidate f w).
Proof.
  intros Hdot. unfold dispatch, on_created, on_moved. rewrite Hdot. done.
Qed.

Lemma hidden_created_is_skipped_witness :
  startswith (os_path.basename Demo.hidden) "." = true ∧
  on_created (FileCreatedEvent Demo.hidden) Demo.dotted = (Ok tt, Demo.dotted).
Proof.
  split; [reflexivity|].
  apply (hidden_created_is_skipped Demo.hidden). reflexivity.
Defined.

(** ** A failing upload (claims C4 and C5) *)

Lemma staged_observer f fl w : observer (staged f fl w) = observer w.
Proof. unfold staged. by destruct (retinascale w). Qed.

Lemma staged_observers f fl w : observers (staged f fl w) = observers w.
Proof. unfold staged. by destruct (retinascale w). Qed.

Lemma staged_trace f fl w : trace (staged f fl w) = trace w.
Proof. unfold staged. by destruct (retinascale w). Qed.

Lemma added_app {A} (m : M A) (w : world) (l : list effect) :
  trace (after m w) = (trace w ++ l)%list → added m w = l.
Proof. unfold added. intros ->. apply drop_app_length. Qed.

(** C4 as stated fails: the network is down, the exception of the remote
    call is caught nowhere, leaves the handler and reaches the observer
    thread that delivered the event. *)
Lemma upload_failure_escapes :
  let e := FileCreatedEvent Demo.shot in
  let w := after Upshot.applicationDidFinishLaunching_ (Demo.fresh Demo.offline false) in
  outcome (handle_screenshot_candidate Demo.shot) w = Raise (ConduitError "network") ∧
  outcome (on_created e) w = Raise (ConduitError "network") ∧
  outcome (deliver 0 e) w = Raise (ConduitError "network") ∧
  outcome (on_created e) w ≠ Ok tt.
Proof. vm_compute. repeat split; try reflexivity. discriminate. Qed.

(** C4, amended: when [file.upload] fails on an accepted candidate, the
    exception is caught nowhere: it is the outcome of
    [handle_screenshot_candidate], of [on_moved] and of [on_created], and so
    it is what the observer thread that delivered the event gets back.  By
    then the file has been rescaled in place if [retinascale] is on, and no
    file has changed otherwise.  The failed remote call is the only effect:
    nothing is written to the clipboard, no notification fires and the
    application is not terminated; the handler leaves [self.observer] and
    the status bar item as they were.  What becomes of the watch session
    after the exception is not stated. *)
Theorem upload_failure_propagates (w : world) (f : string) (fl : file) (x : exn) :
  accepted f fl w →
  file_upload (lib w) (payload fl w) = Raise x →
  (outcome (handle_screenshot_candidate f) w = Raise x ∧
   (∀ src, outcome (on_moved (FileMovedEvent src f)) w = Raise x) ∧
   (startswith (os_path.basename f) "." = false →
    outcome (on_created (FileCreatedEvent f)) w = Raise x) ∧
   (∀ o ob src, observers w !! o = Some ob → watchdog.delivers ob = true →
      outcome (deliver o (FileMovedEvent src f)) w = Raise x ∧
      added (deliver o (FileMovedEvent src f)) w =
        [Conduit "file.upload" (payload fl w)])) ∧
  added (handle_screenshot_candidate f) w =
    [Conduit "file.upload" (payload fl w)] ∧
  (retinascale w = true →
   fs (after (handle_screenshot_candidate f) w) !! f =
     Some (File (ctime fl) (rescale (lib w) (content fl)))) ∧
  (retinascale w = false → fs (after (handle_screenshot_candidate f) w) = fs w) ∧
  observer (after (handle_screenshot_candidate f) w) = observer w ∧
  statusitem (after (handle_screenshot_candidate f) w) = statusitem w.
Proof.
  intros Hacc Hup.
  assert (Hrun := handle_accepted w f fl Hacc). cbn zeta in Hrun.
  rewrite Hup in Hrun.
  assert (Hadd : added (handle_screenshot_candidate f) w =
                   [Conduit "file.upload" (payload fl w)]).
  { apply added_app. unfold after. rewrite Hrun. cbn. by rewrite staged_trace. }
  split; [|split; [exact Hadd|]].
  - unfold outcome, on_moved, on_created. split; [by rewrite Hrun|].
    split; [by rewrite Hrun|]. split.
    + intros ->. cbn. by rewrite Hrun.
    + intros o ob src Ho Hd.
      assert (Hdel : deliver o (FileMovedEvent src f) w =
                       handle_screenshot_candidate f w).
      { unfold deliver. by rewrite Ho, Hd. }
      unfold added, after. rewrite Hdel. split; [by rewrite Hrun | exact Hadd].
  - unfold after. rewrite Hrun. cbn. unfold staged. split; [|split; [|split]].
    + intros ->. cbn. apply lookup_insert_eq.
    + by intros ->.
    + by destruct (retinascale w).
    + by destruct (retinascale w).
Qed.

Lemma upload_failure_propagates_witness :
  let w := after Upshot.applicationDidFinishLaunching_ (Demo.fresh Demo.offline true) in
  outcome (on_created (FileCreatedEvent Demo.shot)) w = Raise (ConduitError "network") ∧
  outcome (deliver 0 (FileMovedEvent Demo.hidden Demo.shot)) w =
    Raise (ConduitError "network") ∧
  added (handle_screenshot_candidate Demo.shot) w =
    [Conduit "file.upload" "b64:half:PNG"] ∧
  fs (after (handle_screenshot_candidate Demo.shot) w) !! Demo.shot =
    Some (File 998 "half:PNG").
Proof.
  intros w.
  destruct (upload_failure_propagates w Demo.shot (File 998 "PNG")
              (ConduitError "network"))
    as ((_ & _ & Hcreated & Hthread) & Hadded & Hscaled & _).
  - split; [reflexivity | split; [vm_compute; discriminate | reflexivity]].
  - reflexivity.
  - split; [apply Hcreated; reflexivity|].
    split; [apply (Hthread 0%nat (ObserverObj (Some Demo.desktop) Alive));
            reflexivity|].
    split; [exact Hadded | apply Hscaled; reflexivity].
Defined.

(** C5 as stated fails: a successful invocation makes two remote calls, not
    one. *)
Lemma upload_step_makes_two_remote_calls :
  let w := Demo.fresh Demo.online false in
  outcome (handle_screenshot_candidate Demo.shot) w = Ok tt ∧
  List.filter is_remote_call (added (handle_screenshot_candidate Demo.shot) w) =
    [Conduit "file.upload" "b64:PNG"; Conduit "file.info" "PHID-FILE-7"] ∧
  remote_calls (added (handle_screenshot_candidate Demo.shot) w) ≠ 1%nat.
Proof. vm_compute. repeat split; try reflexivity. discriminate. Qed.

(** What an accepted candidate adds to the log, by the answer of the two
    remote calls. *)
Lemma added_accepted (w : world) (f : string) (fl : file) :
  accepted f fl w →
  added (handle_screenshot_candidate f) w =
    Conduit "file.upload" (payload fl w) ::
    match file_upload (lib w) (payload fl w) with
    | Raise _ => []
    | Ok phid =>
        Conduit "file.info" phid ::
        match file_info (lib w) phid with
        | Ok (Response (Some url) (Some object_name)) =>
            [Pbcopy url;
             Growl "Screenshot shared!" (notification_body url phid object_name)
                   (Some f) (Some notify_callback_ref)]
        | _ => []
        end
    end.
Proof.
  intros Hacc. apply added_app. unfold after.
  rewrite (handle_accepted w f fl Hacc). cbn zeta.
  destruct (file_upload _ _) as [phid|x];
    [destruct (file_info _ _) as [[[url|] [name|]]|x] |];
    cbn; rewrite staged_trace; by rewrite <- ?(assoc_L (++)).
Qed.

Lemma accepted_one_attempt (w : world) (f : string) (fl : file) :
  accepted f fl w →
  upload_attempts (added (handle_screenshot_candidate f) w) = 1%nat.
Proof.
  intros Hacc. rewrite (added_accepted w f fl Hacc). unfold upload_attempts.
  destruct (file_upload _ _) as [phid|x]; [|done].
  destruct (file_info _ _) as [[[url|] [name|]]|x]; done.
Qed.

(** C5, amended: the upload step of an accepted candidate makes exactly one
    [file.upload] call, on the base64 text of the bytes read; when that call
    fails nothing else is called and the exception is the outcome (no
    retry); when it answers a PHID, exactly one [file.info] call for that
    PHID follows, from which the URL and the object name are taken. *)
Theorem one_upload_then_one_info (w : world) (f : string) (fl : file) :
  accepted f fl w →
  upload_attempts (added (handle_screenshot_candidate f) w) = 1%nat ∧
  match file_upload (lib w) (payload fl w) with
  | Raise x =>
      outcome (handle_screenshot_candidate f) w = Raise x ∧
      List.filter is_remote_call (added (handle_screenshot_candidate f) w) =
        [Conduit "file.upload" (payload fl w)]
  | Ok phid =>
      List.filter is_remote_call (added (handle_screenshot_candidate f) w) =
        [Conduit "file.upload" (payload fl w); Conduit "file.info" phid]
  end.
Proof.
  intros Hacc. split; [by apply (accepted_one_attempt w f fl)|].
  rewrite (added_accepted w f fl Hacc).
  unfold outcome. rewrite (handle_accepted w f fl Hacc). cbn zeta.
  destruct (file_upload _ _) as [phid|x]; [|done].
  destruct (file_info _ _) as [[[url|] [name|]]|x]; done.
Qed.

Lemma one_upload_then_one_info_witness :
  upload_attempts
    (added (handle_screenshot_candidate Demo.shot) (Demo.fresh Demo.online true)) = 1%nat.
Proof.
  apply (one_upload_then_one_info (Demo.fresh Demo.online true) Demo.shot
           (File 998 "PNG")).
  split; [reflexivity | split; [vm_compute; discriminate | reflexivity]].
Defined.

(** ** A successful upload (claim C6) *)

Lemma append_assoc (a b c : string) : (a +:+ b) +:+ c = a +:+ (b +:+ c).
Proof.
  induction a as [|ch a IH]; [reflexivity|].
  change (String ch ((a +:+ b) +:+ c) = String ch (a +:+ (b +:+ c))).
  by rewrite IH.
Qed.

Lemma body_mentions (url phid object_name : string) :
  occurs_in url (notification_body url phid object_name) ∧
  occurs_in phid (notification_body url phid object_name) ∧
  occurs_in object_name (notification_body url phid object_name).
Proof.
  unfold notification_body, occurs_in. repeat split.
  - by eexists _, _.
  - exists ("Your URL is: " +:+ url +:+ nl +:+ "PHID is: "), (nl +:+
      "FILE is: " +:+ object_name +:+ nl +:+ "Click here to view file.").
    by rewrite !append_assoc.
  - exists ("Your URL is: " +:+ url +:+ nl +:+ "PHID is: " +:+ phid +:+ nl +:+
      "FILE is: "), (nl +:+ "Click here to view file.").
    by rewrite !append_assoc.
Qed.

(** C6: an accepted candidate whose two remote calls succeed gives one
    upload, then the URL on the clipboard, then one notification, in this
    order and nothing else.  The text of the notification mentions the URL,
    the PHID and the object name of the file, its context is the path, and
    its callback is [notify_callback]: clicking it selects that path in the
    Finder. *)
Theorem success_copies_then_notifies (w : world) (f : string) (fl : file)
    (phid url object_name : string) :
  accepted f fl w →
  file_upload (lib w) (payload fl w) = Ok phid →
  file_info (lib w) phid = Ok (Response (Some url) (Some object_name)) →
  let note := Growl "Screenshot shared!" (notification_body url phid object_name)
                    (Some f) (Some notify_callback_ref) in
  outcome (handle_screenshot_candidate f) w = Ok tt ∧
  added (handle_screenshot_candidate f) w =
    [Conduit "file.upload" (payload fl w); Conduit "file.info" phid;
     Pbcopy url; note] ∧
  upload_attempts (added (handle_screenshot_candidate f) w) = 1%nat ∧
  (occurs_in url (notification_body url phid object_name) ∧
   occurs_in phid (notification_body url phid object_name) ∧
   occurs_in object_name (notification_body url phid object_name)) ∧
  (∀ w', outcome (click note) w' = Ok tt ∧
         added (click note) w' = [SelectInFinder f]).
Proof.
  intros Hacc Hup Hinfo note.
  rewrite (added_accepted w f fl Hacc). unfold outcome.
  rewrite (handle_accepted w f fl Hacc). cbn zeta. rewrite Hup, Hinfo. cbn.
  repeat split; try apply body_mentions.
  apply added_app. reflexivity.
Qed.

Lemma success_copies_then_notifies_witness :
  added (handle_screenshot_candidate Demo.shot) (Demo.fresh Demo.online false) =
    [Conduit "file.upload" "b64:PNG"; Conduit "file.info" "PHID-FILE-7";
     Pbcopy "http://phab/F7"; Demo.shared].
Proof.
  apply (success_copies_then_notifies (Demo.fresh Demo.online false) Demo.shot
           (File 998 "PNG") "PHID-FILE-7" "http://phab/F7" "F7").
  - split; [reflexivity | split; [vm_compute; discriminate | reflexivity]].
  - reflexivity.
  - reflexivity.
Defined.

(** ** Stopping (claims C7 and C8) *)

Lemma stop_run_idle (w : world) :
  observer w = None →
  Upshot.stopListening_ w = (Ok tt, set_statusitem (paused_icon w) w).
Proof.
  intros Hidle. unfold Upshot.stopListening_, Upshot.update_menu, paused_icon.
  unfold_m. cbn. rewrite Hidle. cbn. rewrite Hidle.
  destruct (statusitem w) eqn:Hs; [done|].
  unfold set_statusitem. rewrite <- Hs. by destruct w.
Qed.

Lemma stop_run_watching (w : world) (o : nat) :
  observer w = Some o →
  Upshot.stopListening_ w =
    (Ok tt,
     World (lib w) (SCREENSHOT_DIR w) (fs w) (clock w) (retinascale w)
       None (paused_icon w)
       (alter (λ ob, watchdog.set_thread (watchdog.join_thread (thread ob)) ob) o
          (alter (λ ob, ObserverObj None (watchdog.stop_thread (thread ob))) o
             (observers w)))
       (trace w ++ [Growl "UpShot paused" "Not listening for screenshots for now!"
                          None None])).
Proof.
  intros Hobs. unfold Upshot.stopListening_, Upshot.update_menu,
    watchdog.stop, watchdog.join, growl_notify, paused_icon.
  unfold_m. cbn. rewrite Hobs. cbn.
  destruct (statusitem w) eqn:Hs;
    unfold emit, set_statusitem, set_observers, set_observer; cbn;
    by rewrite ?Hs.
Qed.

Lemma joined_does_not_deliver (ob : observer_obj) :
  watchdog.delivers
    (watchdog.set_thread
       (watchdog.join_thread
          (thread (ObserverObj None (watchdog.stop_thread (thread ob)))))
       (ObserverObj None (watchdog.stop_thread (thread ob)))) = false.
Proof. reflexivity. Qed.

(** Stop followed by join, on a thread that was started: the observer has
    no watch left and its thread has finished. *)
Lemma stopped_and_joined (ob : observer_obj) :
  thread ob ≠ Unstarted →
  watchdog.set_thread
    (watchdog.join_thread
       (thread (ObserverObj None (watchdog.stop_thread (thread ob)))))
    (ObserverObj None (watchdog.stop_thread (thread ob))) =
  ObserverObj None Joined.
Proof. destruct ob as [dir []]; done. Qed.

Lemma deliver_nothing (w : world) (o : nat) (e : event) :
  (∀ ob, observers w !! o = Some ob → watchdog.delivers ob = false) →
  deliver o e w = (Ok tt, w).
Proof.
  intros Hno. unfold deliver.
  destruct (observers w !! o) as [ob|]; [|done]. by rewrite (Hno ob).
Qed.

(** After stop the observer that was held no longer delivers, and the
    others are what they were. *)
Lemma stop_observers (w : world) :
  (∀ o ob, observer w = Some o → observers (after Upshot.stopListening_ w) !! o = Some ob →
           watchdog.delivers ob = false) ∧
  (∀ i, observer w ≠ Some i →
        observers (after Upshot.stopListening_ w) !! i = observers w !! i).
Proof.
  unfold after. destruct (observer w) as [o|] eqn:Hobs.
  - rewrite (stop_run_watching w o Hobs). cbn. split.
    + intros o' ob [= <-]. rewrite !list_lookup_alter_eq.
      destruct (observers w !! o) as [ob0|]; [|done].
      intros [= <-]. apply joined_does_not_deliver.
    + intros i Hi. rewrite !list_lookup_alter_ne by congruence. done.
  - rewrite (stop_run_idle w Hobs). cbn. split; [done|]. done.
Qed.

Lemma no_delivery_no_sessions (l : list observer_obj) :
  (∀ i ob, l !! i = Some ob → watchdog.delivers ob = false) →
  List.filter watchdog.delivers l = [].
Proof.
  induction l as [|a l IH]; intros Hno; [done|]. cbn.
  rewrite (Hno 0%nat a eq_refl). apply IH. intros i ob. apply (Hno (S i)).
Qed.

(** With a single session, nothing delivers once stop has returned. *)
Lemma stop_leaves_no_session (w : world) :
  single_session w →
  ∀ i ob, observers (after Upshot.stopListening_ w) !! i = Some ob →
          watchdog.delivers ob = false.
Proof.
  intros Hone i ob Hi. destruct (stop_observers w) as [Hheld Hrest].
  destruct (decide (observer w = Some i)) as [Heq|Hne].
  - by apply (Hheld i).
  - rewrite (Hrest i Hne) in Hi.
    destruct (watchdog.delivers ob) eqn:Hd; [|done].
    by destruct Hne, (Hone i ob Hi Hd).
Qed.

(** The single-session invariant holds when the process boots and is kept
    by stop, by start from the idle state and by restart. *)
Lemma single_session_boot c dir files now scale :
  single_session (boot c dir files now scale).
Proof. intros i ob Hi. by destruct i. Qed.

Lemma single_session_stop (w : world) :
  single_session w → single_session (after Upshot.stopListening_ w).
Proof.
  intros Hone i ob Hi Hd.
  by rewrite (stop_leaves_no_session w Hone i ob Hi) in Hd.
Qed.

Lemma single_session_start (w : world) :
  sessions w = 0%nat → single_session (after Upshot.startListening_ w).
Proof.
  intros Hidle i ob. unfold after. rewrite start_run. cbn.
  intros Hi Hd. destruct (decide (i < length (observers w))%nat) as [Hlt|Hge].
  - rewrite lookup_app_l in Hi by done. exfalso.
    apply list_elem_of_lookup_2, list_elem_of_In in Hi.
    assert (Hin : In ob (List.filter watchdog.delivers (observers w)))
      by (apply List.filter_In; done).
    unfold sessions in Hidle.
    destruct (List.filter watchdog.delivers (observers w)); [done | discriminate].
  - apply lookup_lt_Some in Hi as Hlen. rewrite length_app in Hlen. cbn in Hlen.
    f_equal. lia.
Qed.

Lemma single_session_restart (w : world) :
  single_session w →
  single_session (after Upshot.startListening_ (after Upshot.stopListening_ w)).
Proof.
  intros Hone. apply single_session_start. unfold sessions.
  rewrite no_delivery_no_sessions; [done|]. by apply stop_leaves_no_session.
Qed.

(** C7 as stated fails: start was called twice, stop has returned and the
    application is idle, yet the observer of the first start is alive and
    the event it delivers is uploaded. *)
Lemma late_event_reaches_the_uploader :
  let w := after Upshot.stopListening_
             (after Upshot.startListening_
                (after Upshot.applicationDidFinishLaunching_
                   (Demo.fresh Demo.online false))) in
  observer w = None ∧
  upload_attempts (added (deliver 0 (FileCreatedEvent Demo.shot)) w) = 1%nat ∧
  added (deliver 0 (FileCreatedEvent Demo.shot)) w ≠ [].
Proof. vm_compute. repeat split; try reflexivity. discriminate. Qed.

(** C7, amended: before stop returns, the observer held in
    [self.observer], a started observer, has been stopped and joined: it
    has no watch left and its thread has finished.  An event that this
    observer would deliver after stop has returned therefore reaches
    neither the handler nor the uploader.  When no other observer was
    delivering (there was no start while watching), no observer delivers
    after stop: no session is left and a late event changes nothing,
    whichever observer it is offered to. *)
Theorem stop_ends_the_held_session (w : world) :
  (∀ o ob, observer w = Some o → observers w !! o = Some ob →
     thread ob ≠ Unstarted →
     observers (after Upshot.stopListening_ w) !! o =
       Some (ObserverObj None Joined)) ∧
  (∀ o e, observer w = Some o →
     deliver o e (after Upshot.stopListening_ w) =
       (Ok tt, after Upshot.stopListening_ w)) ∧
  (single_session w →
     sessions (after Upshot.stopListening_ w) = 0%nat ∧
     ∀ o e, deliver o e (after Upshot.stopListening_ w) =
              (Ok tt, after Upshot.stopListening_ w)).
Proof.
  destruct (stop_observers w) as [Hheld Hrest]. split; [|split].
  - intros o ob Hobs Ho Hstarted. unfold after.
    rewrite (stop_run_watching w o Hobs). cbn.
    rewrite !list_lookup_alter_eq, Ho. cbn. f_equal.
    by apply stopped_and_joined.
  - intros o e Hobs. apply deliver_nothing. intros ob. by apply Hheld.
  - intros Hone. assert (Hnone := stop_leaves_no_session w Hone). split.
    + unfold sessions. by rewrite no_delivery_no_sessions.
    + intros o e. apply deliver_nothing. intros ob. apply Hnone.
Qed.

Lemma stop_ends_the_held_session_witness :
  let w := after Upshot.applicationDidFinishLaunching_ (Demo.fresh Demo.online false) in
  observers (after Upshot.stopListening_ w) !! 0%nat =
    Some (ObserverObj None Joined) ∧
  deliver 0 (FileCreatedEvent Demo.shot) (after Upshot.stopListening_ w) =
    (Ok tt, after Upshot.stopListening_ w) ∧
  sessions (after Upshot.stopListening_ w) = 0%nat.
Proof.
  intros w. destruct (stop_ends_the_held_session w) as (Hjoined & Hheld & Hone).
  split; [|split].
  - apply (Hjoined 0%nat (ObserverObj (Some Demo.desktop) Alive));
      [reflexivity | reflexivity | discriminate].
  - apply Hheld. reflexivity.
  - apply Hone.
    intros [|[|i]] ob Hi Hd;
      [reflexivity | vm_compute in Hi; discriminate Hi ..].
Defined.

Lemma paused_icon_fixed (w : world) :
  statusitem w ≠ Some icon16 → set_statusitem (paused_icon w) w = w.
Proof.
  unfold set_statusitem, paused_icon. destruct w as [? ? ? ? ? ? [[]|] ? ?]; cbn; done.
Qed.

(** C8: when no session is active, stop raises nothing, starts and stops
    no observer, sends no notification and leaves [self.observer] at
    [None]; all it does is to refresh the status bar image, which already
    shows the paused icon unless the menu was never updated, so the world
    is unchanged.  In every state a second stop changes nothing: stop is
    idempotent. *)
Theorem stop_when_idle_is_a_noop (w : world) :
  (observer w = None →
     outcome Upshot.stopListening_ w = Ok tt ∧
     observer (after Upshot.stopListening_ w) = None ∧
     observers (after Upshot.stopListening_ w) = observers w ∧
     trace (after Upshot.stopListening_ w) = trace w ∧
     fs (after Upshot.stopListening_ w) = fs w ∧
     (statusitem w ≠ Some icon16 → after Upshot.stopListening_ w = w)) ∧
  Upshot.stopListening_ (after Upshot.stopListening_ w) =
    (Ok tt, after Upshot.stopListening_ w).
Proof.
  split.
  - intros Hidle. unfold outcome, after. rewrite (stop_run_idle w Hidle). cbn.
    repeat split; try done. apply paused_icon_fixed.
  - assert (Hnone : observer (after Upshot.stopListening_ w) = None).
    { unfold after. destruct (observer w) as [o|] eqn:Hobs.
      - by rewrite (stop_run_watching w o Hobs).
      - by rewrite (stop_run_idle w Hobs). }
    rewrite (stop_run_idle _ Hnone). f_equal. apply paused_icon_fixed.
    unfold after. destruct (observer w) as [o|] eqn:Hobs.
    + rewrite (stop_run_watching w o Hobs). cbn. unfold paused_icon.
      by destruct (statusitem w).
    + rewrite (stop_run_idle w Hobs). cbn. unfold paused_icon.
      by destruct (statusitem w).
Qed.

Lemma stop_when_idle_is_a_noop_witness :
  let w := after Upshot.stopListening_
             (after Upshot.applicationDidFinishLaunching_
                (Demo.fresh Demo.online false)) in
  outcome Upshot.stopListening_ w = Ok tt ∧ after Upshot.stopListening_ w = w.
Proof.
  intros w.
  destruct (proj1 (stop_when_idle_is_a_noop w)) as (Hok & _ & _ & _ & _ & Hsame).
  - reflexivity.
  - split; [exact Hok | apply Hsame; vm_compute; discriminate].
Defined.

(** ** One event, one attempt (claim C9) *)

Lemma handle_cases (w : world) (f : string) :
  handle_screenshot_candidate f w = (Raise OSError, w) ∨
  handle_screenshot_candidate f w = (Ok tt, w) ∨
  ∃ fl, accepted f fl w.
Proof.
  destruct (fs w !! f) as [fl|] eqn:Hf.
  - destruct (decide (ctime fl - clock w > TIME_THRESHOLD)) as [Hage|Hage].
    + right; left. by apply (handle_from_the_future w f fl).
    + destruct (is_screenshot_of (lib w) (fs w) f) eqn:Hshot.
      * right; right. by exists fl.
      * right; left. by apply (handle_not_a_screenshot w f fl).
  - left. by apply handle_missing.
Qed.

Lemma added_nothing {A} (m : M A) (w : world) (r : result A) :
  m w = (r, w) → added m w = [] ∧ trace (after m w) = trace w.
Proof.
  intros Hrun. unfold added, after. rewrite Hrun. cbn.
  by rewrite drop_all.
Qed.

(** The log only grows, and by at most one upload attempt per candidate. *)
Lemma handle_extends (w : world) (f : string) :
  trace (after (handle_screenshot_candidate f) w) =
    (trace w ++ added (handle_screenshot_candidate f) w)%list ∧
  (upload_attempts (added (handle_screenshot_candidate f) w) ≤ 1)%nat.
Proof.
  destruct (handle_cases w f) as [Hrun|[Hrun|[fl Hacc]]].
  - destruct (added_nothing _ _ _ Hrun) as [-> ->].
    by rewrite app_nil_r; cbn; auto.
  - destruct (added_nothing _ _ _ Hrun) as [-> ->].
    by rewrite app_nil_r; cbn; auto.
  - split.
    + rewrite (added_accepted w f fl Hacc). unfold after.
      rewrite (handle_accepted w f fl Hacc). cbn zeta.
      destruct (file_upload _ _) as [phid|x];
        [destruct (file_info _ _) as [[[url|] [name|]]|x] |];
        cbn; rewrite staged_trace; by rewrite <- ?(assoc_L (++)).
    + by rewrite (accepted_one_attempt w f fl Hacc).
Qed.

Lemma dispatch_extends (w : world) (e : event) :
  trace (after (dispatch e) w) = (trace w ++ added (dispatch e) w)%list ∧
  (upload_attempts (added (dispatch e) w) ≤ 1)%nat.
Proof.
  assert (Hskip : trace (after skip w) = (trace w ++ added skip w)%list ∧
                  (upload_attempts (added skip w) ≤ 1)%nat).
  { destruct (added_nothing skip w (Ok tt) eq_refl) as [-> ->].
    rewrite app_nil_r. cbn. auto. }
  destruct e as [f|f|src f|src f|f|f]; cbn; try exact Hskip.
  - destruct (negb _); [apply handle_extends | exact Hskip].
  - apply handle_extends.
Qed.

Lemma upload_attempts_app (l k : list effect) :
  upload_attempts (l ++ k) = (upload_attempts l + upload_attempts k)%nat.
Proof. unfold upload_attempts. by rewrite List.filter_app, length_app. Qed.

(** C9 as stated fails: a creation event and a move event name the same
    final path, and the file is uploaded twice. *)
Lemma created_then_moved_uploads_twice :
  let w1 := after (dispatch (FileCreatedEvent Demo.shot)) (Demo.fresh Demo.online false) in
  let w2 := after (dispatch (FileMovedEvent Demo.hidden Demo.shot)) w1 in
  upload_attempts (trace w2) = 2%nat ∧ ¬ (upload_attempts (trace w2) ≤ 1)%nat.
Proof. vm_compute. split; [reflexivity | lia]. Qed.

(** C9, amended: the handler keeps no record of the paths it has handled.
    One event gives at most one upload attempt.  A creation event is
    dropped only for a hidden name, which is how the temporary file of a
    full screenshot and its move to the final name give at most one
    attempt between them; a creation event and a move event for the same
    visible path are handled one after the other, each on its own. *)
Theorem one_attempt_per_event (w : world) :
  (∀ e, (upload_attempts (added (dispatch e) w) ≤ 1)%nat) ∧
  (∀ f e, startswith (os_path.basename f) "." = true →
     (upload_attempts
        (trace (after (dispatch e) (after (dispatch (FileCreatedEvent f)) w)))
      ≤ upload_attempts (trace w) + 1)%nat) ∧
  (∀ f src, startswith (os_path.basename f) "." = false →
     after (dispatch (FileMovedEvent src f)) (after (dispatch (FileCreatedEvent f)) w) =
     after (handle_screenshot_candidate f) (after (handle_screenshot_candidate f) w)).
Proof.
  repeat split.
  - intros e. apply dispatch_extends.
  - intros f e Hdot.
    assert (Hsame : after (dispatch (FileCreatedEvent f)) w = w).
    { unfold after, dispatch, on_created. by rewrite Hdot. }
    rewrite Hsame. destruct (dispatch_extends w e) as [-> Hle].
    rewrite upload_attempts_app. lia.
  - intros f src Hvis. unfold after, dispatch, on_created, on_moved.
    by rewrite Hvis.
Qed.

Lemma one_attempt_per_event_witness :
  (upload_attempts
     (trace (after (dispatch (FileMovedEvent Demo.hidden Demo.shot))
               (after (dispatch (FileCreatedEvent Demo.hidden))
                      (Demo.fresh Demo.online false))))
   ≤ upload_attempts (trace (Demo.fresh Demo.online false)) + 1)%nat.
Proof.
  apply (proj1 (proj2 (one_attempt_per_event (Demo.fresh Demo.online false)))).
  reflexivity.
Defined.

(** ** Rescaling before the upload (claim C10) *)

Lemma fs_after_accepted (w : world) (f : string) (fl : file) :
  accepted f fl w →
  fs (after (handle_screenshot_candidate f) w) = fs (staged f fl w).
Proof.
  intros Hacc. unfold after. rewrite (handle_accepted w f fl Hacc). cbn zeta.
  destruct (file_upload _ _) as [phid|x]; [|done].
  destruct (file_info _ _) as [[[url|] [name|]]|x]; done.
Qed.

(** C10: for a candidate that passes the checks, with [retinascale] on the
    file is replaced by its rescaled image before it is read, so that the
    text sent to [file.upload] encodes the rescaled bytes and the file no
    longer holds the original ones (the other files are untouched); with
    [retinascale] off no file changes and the text sent encodes the bytes
    of the file as they were. *)
Theorem retinascale_decides_what_is_uploaded (w : world) (f : string) (fl : file) :
  accepted f fl w →
  (retinascale w = true →
     head (added (handle_screenshot_candidate f) w) =
       Some (Conduit "file.upload" (b64encode (lib w) (rescale (lib w) (content fl)))) ∧
     fs (after (handle_screenshot_candidate f) w) !! f =
       Some (File (ctime fl) (rescale (lib w) (content fl))) ∧
     ∀ g, g ≠ f → fs (after (handle_screenshot_candidate f) w) !! g = fs w !! g) ∧
  (retinascale w = false →
     head (added (handle_screenshot_candidate f) w) =
       Some (Conduit "file.upload" (b64encode (lib w) (content fl))) ∧
     fs (after (handle_screenshot_candidate f) w) = fs w).
Proof.
  intros Hacc. rewrite (added_accepted w f fl Hacc), (fs_after_accepted w f fl Hacc).
  unfold payload, staged. split; intros ->; cbn.
  - repeat split.
    + apply lookup_insert_eq.
    + intros g Hg. by apply lookup_insert_ne.
  - done.
Qed.

Lemma retinascale_decides_what_is_uploaded_witness :
  (head (added (handle_screenshot_candidate Demo.shot) (Demo.fresh Demo.online true)) =
     Some (Conduit "file.upload" "b64:half:PNG") ∧
   fs (after (handle_screenshot_candidate Demo.shot) (Demo.fresh Demo.online true))
     !! Demo.shot = Some (File 998 "half:PNG")) ∧
  (head (added (handle_screenshot_candidate Demo.shot) (Demo.fresh Demo.online false)) =
     Some (Conduit "file.upload" "b64:PNG") ∧
   fs (after (handle_screenshot_candidate Demo.shot) (Demo.fresh Demo.online false)) =
     fs (Demo.fresh Demo.online false)).
Proof.
  split.
  - destruct (retinascale_decides_what_is_uploaded (Demo.fresh Demo.online true)
                Demo.shot (File 998 "PNG")) as [Hon _].
    + split; [reflexivity | split; [vm_compute; discriminate | reflexivity]].
    + destruct Hon as (Hhead & Hfile & _); [reflexivity|].
      split; [exact Hhead | exact Hfile].
  - destruct (retinascale_decides_what_is_uploaded (Demo.fresh Demo.online false)
                Demo.shot (File 998 "PNG")) as [_ Hoff].
    + split; [reflexivity | split; [vm_compute; discriminate | reflexivity]].
    + apply Hoff. reflexivity.
Defined.

(** * Further properties of the handler *)

Ltac by_answers :=
  destruct (file_upload _ _) as [?phid|?x];
    [destruct (file_info _ _) as [[[?url|] [?name|]]|?x] |].

Lemma dispatch_candidate (w : world) (e : event) :
  dispatch e w =
    match candidate_of e with
    | Some f => handle_screenshot_candidate f w
    | None => (Ok tt, w)
    end.
Proof.
  destruct e as [f|f|src f|src f|f|f]; cbn; try done.
  by destruct (startswith _ _).
Qed.

Lemma accepted_adds (w : world) (f : string) (fl : file) :
  accepted f fl w → added (handle_screenshot_candidate f) w ≠ [].
Proof. intros Hacc. by rewrite (added_accepted w f fl Hacc). Qed.

Lemma not_accepted_unchanged (w : world) (f : string) :
  (¬ ∃ fl, accepted f fl w) →
  after (handle_screenshot_candidate f) w = w ∧
  added (handle_screenshot_candidate f) w = [].
Proof.
  intros Hno. destruct (handle_cases w f) as [Hrun|[Hrun|Hacc]]; [| |done].
  - split; [unfold after; by rewrite Hrun | eapply added_nothing, Hrun].
  - split; [unfold after; by rewrite Hrun | eapply added_nothing, Hrun].
Qed.

(** X1: an event has an effect exactly when it hands a path to the
    classifier (a file creation with a visible name, or a file move) and
    that path passes the three checks; every other event leaves the world
    as it is. *)
Theorem event_is_handled_iff_accepted (w : world) (e : event) :
  (added (dispatch e) w ≠ [] ↔
     ∃ f fl, candidate_of e = Some f ∧ accepted f fl w) ∧
  ((¬ ∃ f fl, candidate_of e = Some f ∧ accepted f fl w) →
     after (dispatch e) w = w).
Proof.
  assert (Hadd : added (dispatch e) w =
            match candidate_of e with
            | Some f => added (handle_screenshot_candidate f) w
            | None => []
            end).
  { unfold added, after. rewrite dispatch_candidate.
    destruct (candidate_of e); [done|]. cbn. by rewrite drop_all. }
  assert (Haft : after (dispatch e) w =
            match candidate_of e with
            | Some f => after (handle_screenshot_candidate f) w
            | None => w
            end).
  { unfold after. rewrite dispatch_candidate. by destruct (candidate_of e). }
  rewrite Hadd, Haft. destruct (candidate_of e) as [f|].
  - split; [split|].
    + intros Hne. destruct (handle_cases w f) as [Hrun|[Hrun|[fl Hacc]]].
      * by destruct Hne; eapply added_nothing, Hrun.
      * by destruct Hne; eapply added_nothing, Hrun.
      * by exists f, fl.
    + intros (f' & fl & [= <-] & Hacc). by apply (accepted_adds w f fl).
    + intros Hno. apply not_accepted_unchanged.
      intros [fl Hacc]. apply Hno. by exists f, fl.
  - split; [split|]; [done | by intros (f & fl & ? & _) | done].
Qed.

Lemma event_is_handled_iff_accepted_witness :
  after (dispatch (FileCreatedEvent Demo.hidden)) Demo.dotted = Demo.dotted ∧
  added (dispatch (FileMovedEvent Demo.hidden Demo.shot)) (Demo.fresh Demo.online false) ≠ [].
Proof.
  split.
  - apply (event_is_handled_iff_accepted Demo.dotted (FileCreatedEvent Demo.hidden)).
    intros (f & fl & Hcand & _). vm_compute in Hcand. discriminate Hcand.
  - apply (event_is_handled_iff_accepted (Demo.fresh Demo.online false)
             (FileMovedEvent Demo.hidden Demo.shot)).
    exists Demo.shot, (File 998 "PNG"). split; [reflexivity|].
    split; [reflexivity | split; [vm_compute; discriminate | reflexivity]].
Defined.

(** X2: for a file that exists and is a screenshot, the age test stops the
    handler exactly when the creation time lies more than [TIME_THRESHOLD]
    seconds after the current time; at exactly [TIME_THRESHOLD] seconds the
    file is still handled. *)
Theorem age_test_rejects_only_future_files (w : world) (f : string) (fl : file) :
  fs w !! f = Some fl →
  is_screenshot_of (lib w) (fs w) f = true →
  (added (handle_screenshot_candidate f) w = [] ↔
   ctime fl > clock w + TIME_THRESHOLD).
Proof.
  intros Hf Hshot.
  destruct (decide (ctime fl - clock w > TIME_THRESHOLD)) as [Hage|Hage].
  - split; [lia|]. intros _.
    eapply added_nothing, (handle_from_the_future w f fl Hf Hage).
  - split; [|lia]. intros Hnil.
    by destruct (accepted_adds w f fl (conj Hf (conj Hage Hshot))).
Qed.

Lemma age_test_rejects_only_future_files_witness :
  added (handle_screenshot_candidate Demo.shot)
        (boot Demo.online Demo.desktop {[ Demo.shot := File 1016 "PNG" ]} 1000 false) = [] ∧
  added (handle_screenshot_candidate Demo.shot)
        (boot Demo.online Demo.desktop {[ Demo.shot := File 1015 "PNG" ]} 1000 false) ≠ [].
Proof.
  split.
  - apply (age_test_rejects_only_future_files _ Demo.shot (File 1016 "PNG"));
      [reflexivity | reflexivity | vm_compute; reflexivity].
  - intros Hnil.
    apply (age_test_rejects_only_future_files _ Demo.shot (File 1015 "PNG")) in Hnil;
      [vm_compute in Hnil; discriminate Hnil | reflexivity | reflexivity].
Defined.

(** X3: when [file.upload] has answered and [file.info] fails, or answers
    without ['uri'] or without ['objectName'], the exception leaves the
    handler after the two remote calls: the file is uploaded, but nothing is
    copied and nobody is notified.  A missing ['uri'] is reported before a
    missing ['objectName']. *)
Theorem info_failure_after_upload (w : world) (f : string) (fl : file) (phid : string) :
  accepted f fl w →
  file_upload (lib w) (payload fl w) = Ok phid →
  let calls := [Conduit "file.upload" (payload fl w); Conduit "file.info" phid] in
  match file_info (lib w) phid with
  | Raise x =>
      outcome (handle_screenshot_candidate f) w = Raise x ∧
      added (handle_screenshot_candidate f) w = calls
  | Ok (Response None _) =>
      outcome (handle_screenshot_candidate f) w = Raise (KeyError "uri") ∧
      added (handle_screenshot_candidate f) w = calls
  | Ok (Response (Some _) None) =>
      outcome (handle_screenshot_candidate f) w = Raise (KeyError "objectName") ∧
      added (handle_screenshot_candidate f) w = calls
  | Ok (Response (Some _) (Some _)) =>
      outcome (handle_screenshot_candidate f) w = Ok tt
  end.
Proof.
  intros Hacc Hup calls. subst calls.
  rewrite (added_accepted w f fl Hacc). unfold outcome.
  rewrite (handle_accepted w f fl Hacc). cbn zeta. rewrite Hup.
  destruct (file_info _ _) as [[[url|] [name|]]|x]; done.
Qed.

Lemma info_failure_after_upload_witness :
  let c := Collaborators (λ _ _, true) (λ s, s) (λ s, s)
             (λ _, Ok "PHID-FILE-7") (λ _, Ok (Response None None)) in
  let w := boot c Demo.desktop {[ Demo.shot := File 998 "PNG" ]} 1000 false in
  outcome (handle_screenshot_candidate Demo.shot) w = Raise (KeyError "uri") ∧
  added (handle_screenshot_candidate Demo.shot) w =
    [Conduit "file.upload" "PNG"; Conduit "file.info" "PHID-FILE-7"].
Proof.
  intros c w.
  apply (info_failure_after_upload w Demo.shot (File 998 "PNG") "PHID-FILE-7").
  - split; [reflexivity | split; [vm_compute; discriminate | reflexivity]].
  - reflexivity.
Defined.

(** What the handler leaves alone, whatever the candidate. *)
Lemma handle_frame (w : world) (f : string) :
  let w' := after (handle_screenshot_candidate f) w in
  (lib w' = lib w ∧ SCREENSHOT_DIR w' = SCREENSHOT_DIR w ∧ clock w' = clock w ∧
   retinascale w' = retinascale w) ∧
  (observer w' = observer w ∧ statusitem w' = statusitem w ∧
   observers w' = observers w) ∧
  (retinascale w = false → fs w' = fs w) ∧
  (∀ g, g ≠ f → fs w' !! g = fs w !! g) ∧
  Forall (λ x, is_pipeline_effect x = true)
         (added (handle_screenshot_candidate f) w).
Proof.
  cbn zeta. destruct (handle_cases w f) as [Hrun|[Hrun|[fl Hacc]]].
  - destruct (added_nothing _ _ _ Hrun) as [-> _].
    unfold after. rewrite Hrun. cbn. done.
  - destruct (added_nothing _ _ _ Hrun) as [-> _].
    unfold after. rewrite Hrun. cbn. done.
  - rewrite (added_accepted w f fl Hacc). unfold after.
    rewrite (handle_accepted w f fl Hacc). cbn zeta. unfold staged.
    by_answers; destruct (retinascale w) eqn:Hscale; cbn;
      rewrite ?Hscale; repeat split; try done;
      try (intros g Hg; by apply lookup_insert_ne);
      repeat constructor.
Qed.

(** X4: handling an event never touches the application: the held
    observer, the observer threads, the status bar item, the clock and the
    preferences are what they were; the effects it adds are remote calls,
    clipboard writes and notifications only (it never terminates the
    application); and the only file that can change is the candidate itself,
    and only when [retinascale] is on. *)
Theorem handler_leaves_the_application_alone (w : world) (e : event) :
  let w' := after (dispatch e) w in
  (lib w' = lib w ∧ SCREENSHOT_DIR w' = SCREENSHOT_DIR w ∧ clock w' = clock w ∧
   retinascale w' = retinascale w) ∧
  (observer w' = observer w ∧ statusitem w' = statusitem w ∧
   observers w' = observers w) ∧
  (retinascale w = false → fs w' = fs w) ∧
  (∀ g, candidate_of e ≠ Some g → fs w' !! g = fs w !! g) ∧
  Forall (λ x, is_pipeline_effect x = true) (added (dispatch e) w).
Proof.
  cbn zeta. unfold added, after. rewrite dispatch_candidate.
  destruct (candidate_of e) as [f|].
  - destruct (handle_frame w f) as (H1 & H2 & H3 & H4 & H5).
    repeat split; try apply H1; try apply H2; try done.
    intros g Hg. apply H4. congruence.
  - cbn. rewrite drop_all. repeat split; done.
Qed.

Lemma handler_leaves_the_application_alone_witness :
  let e := FileMovedEvent Demo.hidden Demo.shot in
  fs (after (dispatch e) (Demo.fresh Demo.online false)) = fs (Demo.fresh Demo.online false) ∧
  fs (after (dispatch e) (Demo.fresh Demo.online true)) !! Demo.hidden = None.
Proof.
  intros e. split.
  - apply (handler_leaves_the_application_alone (Demo.fresh Demo.online false) e).
    reflexivity.
  - destruct (handler_leaves_the_application_alone (Demo.fresh Demo.online true) e)
      as (_ & _ & _ & Hother & _).
    rewrite Hother; [reflexivity|]. vm_compute. discriminate.
Defined.

Lemma sessions_alter (g : observer_obj → observer_obj) (l : list observer_obj)
    (o : nat) (ob : observer_obj) :
  l !! o = Some ob → watchdog.delivers ob = true → watchdog.delivers (g ob) = false →
  S (length (List.filter watchdog.delivers (alter g o l))) =
  length (List.filter watchdog.delivers l).
Proof.
  revert o. induction l as [|a l IH]; intros [|o] Hl Hd Hg; try done.
  - cbn in Hl. injection Hl as ->. cbn. by rewrite Hd, Hg.
  - cbn in Hl. cbn. destruct (watchdog.delivers a); cbn; by rewrite (IH o).
Qed.

(** * Further properties of the application *)

Lemma stop_ok (w : world) : outcome Upshot.stopListening_ w = Ok tt.
Proof.
  unfold outcome. destruct (observer w) as [o|] eqn:Hobs.
  - by rewrite (stop_run_watching w o Hobs).
  - by rewrite (stop_run_idle w Hobs).
Qed.

Lemma stop_trace (w : world) :
  trace (after Upshot.stopListening_ w) =
    (trace w ++ match observer w with Some _ => [paused_note] | None => [] end)%list.
Proof.
  unfold after. destruct (observer w) as [o|] eqn:Hobs.
  - by rewrite (stop_run_watching w o Hobs).
  - rewrite (stop_run_idle w Hobs). cbn. by rewrite app_nil_r.
Qed.

Lemma stop_frame (w : world) :
  let w' := after Upshot.stopListening_ w in
  observer w' = None ∧ statusitem w' = paused_icon w ∧
  length (observers w') = length (observers w) ∧
  fs w' = fs w ∧ lib w' = lib w ∧ SCREENSHOT_DIR w' = SCREENSHOT_DIR w ∧
  clock w' = clock w ∧ retinascale w' = retinascale w.
Proof.
  cbn zeta. unfold after. destruct (observer w) as [o|] eqn:Hobs.
  - rewrite (stop_run_watching w o Hobs). cbn. by rewrite !length_alter.
  - rewrite (stop_run_idle w Hobs). cbn. done.
Qed.

Lemma bind_after_ok {A B} (m : M A) (k : A → M B) (w : world) (a : A) :
  outcome m w = Ok a → (m ≫= k) w = k a (after m w).
Proof.
  unfold outcome, after, mbind, M_bind. by destruct (m w) as [[a'|x] w']; intros [= ->].
Qed.

Lemma start_adds_a_session_aux (w : world) :
  outcome Upshot.startListening_ w = Ok tt ∧
  observer (after Upshot.startListening_ w) = Some (length (observers w)) ∧
  sessions (after Upshot.startListening_ w) = S (sessions w) ∧
  trace (after Upshot.startListening_ w) = (trace w ++ [started_note])%list.
Proof.
  unfold outcome, after, sessions. rewrite start_run. cbn.
  repeat split. rewrite sessions_snoc. cbn. lia.
Qed.

(** X7: start followed by stop gives the idle state back: the observer
    that start created has been joined, no session was added, the
    application holds no observer, and the user has seen the two
    notifications, started then paused.  The observers that existed before
    are what they were. *)
Theorem start_then_stop (w : world) :
  let w' := after Upshot.stopListening_ (after Upshot.startListening_ w) in
  observer w' = None ∧
  observers w' = (observers w ++ [ObserverObj None Joined])%list ∧
  sessions w' = sessions w ∧
  trace w' = (trace w ++ [started_note; paused_note])%list ∧
  statusitem w' = paused_icon w ∧ fs w' = fs w.
Proof.
  cbn zeta. unfold after at 2 4 6 8 10 12. rewrite start_run. cbn [snd].
  unfold after. rewrite (stop_run_watching _ (length (observers w))) by done.
  cbn. rewrite !alter_last. cbn. repeat split.
  - unfold sessions. cbn. rewrite sessions_snoc. cbn. lia.
  - by rewrite <- (assoc_L (++)).
  - unfold paused_icon. cbn. by destruct (statusitem w).
Qed.

(** X8: restart stops the held session and opens a new one on a new
    observer.  When it returns, [self.observer] is an observer that did not
    exist before, the user has been told that sharing was paused only if it
    was on, and then that it started.  When no observer had been left
    behind by a start while watching, exactly one session is active
    afterwards. *)
Theorem restart_opens_one_fresh_session (w : world) :
  outcome Upshot.restart_ w = Ok tt →
  observer (after Upshot.restart_ w) = Some (length (observers w)) ∧
  trace (after Upshot.restart_ w) =
    (trace w ++ match observer w with Some _ => [paused_note] | None => [] end
             ++ [started_note])%list ∧
  (single_session w →
     sessions (after Upshot.restart_ w) = 1%nat ∧
     single_session (after Upshot.restart_ w)).
Proof.
  intros _.
  assert (Hrun : Upshot.restart_ w =
            Upshot.startListening_ (after Upshot.stopListening_ w)).
  { unfold Upshot.restart_.
    apply (bind_after_ok Upshot.stopListening_ (λ _, Upshot.startListening_) w tt),
      stop_ok. }
  destruct (stop_frame w) as (_ & _ & Hlen & _).
  unfold after at 1 2 3 4. rewrite Hrun.
  change (Upshot.startListening_ ?v).2 with (after Upshot.startListening_ v).
  destruct (start_adds_a_session_aux (after Upshot.stopListening_ w))
    as (_ & Hobs & Hsess & Htrace).
  repeat split.
  - by rewrite Hobs, Hlen.
  - by rewrite Htrace, stop_trace, <- (assoc_L (++)).
  - rewrite Hsess. unfold sessions.
    rewrite no_delivery_no_sessions; [done|]. by apply stop_leaves_no_session.
  - by apply single_session_restart.
Qed.

Lemma restart_opens_one_fresh_session_witness :
  let w := after Upshot.applicationDidFinishLaunching_ (Demo.fresh Demo.online false) in
  sessions (after Upshot.restart_ w) = 1%nat ∧
  observer (after Upshot.restart_ w) = Some 1%nat.
Proof.
  intros w.
  destruct (restart_opens_one_fresh_session w) as (Hobs & _ & Hone);
    [reflexivity|].
  split; [|exact Hobs]. apply Hone.
  intros [|[|i]] ob Hi Hd;
    [reflexivity | vm_compute in Hi; discriminate Hi ..].
Defined.

(** X9: when the held observer, if there is one, has been started, quit
    stops and joins it like stop does and then terminates the application:
    the termination is the last effect, after the paused notification when
    sharing was on, no observer is held any more, and with a single session
    nothing is left watching. *)
Theorem quit_stops_then_terminates (w : world) :
  (∀ o ob, observer w = Some o → observers w !! o = Some ob →
           thread ob ≠ Unstarted) →
  trace (after Upshot.quit_ w) =
    (trace w ++ match observer w with Some _ => [paused_note] | None => [] end
             ++ [Terminate])%list ∧
  observer (after Upshot.quit_ w) = None ∧
  (∀ o ob, observer w = Some o → observers w !! o = Some ob →
           observers (after Upshot.quit_ w) !! o = Some (ObserverObj None Joined)) ∧
  (single_session w → sessions (after Upshot.quit_ w) = 0%nat).
Proof.
  intros Hstarted.
  assert (Hrun : Upshot.quit_ w =
            (Ok tt, emit Terminate (after Upshot.stopListening_ w))).
  { unfold Upshot.quit_.
    apply (bind_after_ok Upshot.stopListening_ (λ _, modify (emit Terminate)) w tt),
      stop_ok. }
  unfold after at 1 2 3 4. rewrite Hrun. cbn.
  destruct (stop_frame w) as (Hobs & _). split; [|split; [|split]].
  - by rewrite stop_trace, <- (assoc_L (++)).
  - done.
  - intros o ob Ho Hl. unfold after. rewrite (stop_run_watching w o Ho). cbn.
    rewrite !list_lookup_alter_eq, Hl. cbn. f_equal.
    apply stopped_and_joined. by apply (Hstarted o ob).
  - intros Hone. change (sessions (after Upshot.stopListening_ w) = 0%nat).
    unfold sessions.
    rewrite no_delivery_no_sessions; [done|]. by apply stop_leaves_no_session.
Qed.

Lemma quit_stops_then_terminates_witness :
  let w := after Upshot.applicationDidFinishLaunching_ (Demo.fresh Demo.online false) in
  trace (after Upshot.quit_ w) = [started_note; paused_note; Terminate] ∧
  sessions (after Upshot.quit_ w) = 0%nat.
Proof.
  intros w. destruct (quit_stops_then_terminates w) as (Htrace & _ & _ & Hone).
  - intros [|[|i]] ob Ho Hl; vm_compute in Ho, Hl;
      [injection Hl as <-; discriminate | discriminate Ho ..].
  - split; [exact Htrace|]. apply Hone.
    intros [|[|i]] ob Hi Hd;
      [reflexivity | vm_compute in Hi; discriminate Hi ..].
Defined.

(** X10: stop while watching ends exactly the held session.  The held
    observer is unscheduled and joined, one session fewer is active, every
    other observer is untouched, and the paused notification is the only
    effect. *)
Theorem stop_ends_exactly_the_held_session (w : world) (o : nat) (ob : observer_obj) :
  observer w = Some o →
  observers w !! o = Some ob →
  watchdog.delivers ob = true →
  let w' := after Upshot.stopListening_ w in
  observers w' !! o = Some (ObserverObj None Joined) ∧
  (∀ i, i ≠ o → observers w' !! i = observers w !! i) ∧
  S (sessions w') = sessions w ∧
  added Upshot.stopListening_ w = [paused_note].
Proof.
  intros Hobs Ho Hd. cbn zeta.
  assert (Halive : thread ob = Alive).
  { unfold watchdog.delivers in Hd. by destruct (watch ob), (thread ob). }
  repeat split.
  - unfold after. rewrite (stop_run_watching w o Hobs). cbn.
    rewrite !list_lookup_alter_eq, Ho. cbn. by rewrite Halive.
  - intros i Hi. apply stop_observers. congruence.
  - unfold after, sessions. rewrite (stop_run_watching w o Hobs). cbn.
    rewrite list_alter_alter_eq.
    apply (sessions_alter _ _ o ob); [done | done | reflexivity].
  - apply added_app. by rewrite stop_trace, Hobs.
Qed.

Lemma stop_ends_exactly_the_held_session_witness :
  let w := after Upshot.applicationDidFinishLaunching_ (Demo.fresh Demo.online false) in
  observers (after Upshot.stopListening_ w) !! 0%nat =
    Some (ObserverObj None Joined) ∧
  added Upshot.stopListening_ w = [paused_note].
Proof.
  intros w.
  destruct (stop_ends_exactly_the_held_session w 0
              (ObserverObj (Some Demo.desktop) Alive))
    as (Hjoined & _ & _ & Hnote); [reflexivity | reflexivity | reflexivity |].
  split; [exact Hjoined | exact Hnote].
Defined.

Lemma deliver_frame (w : world) (o : nat) (e : event) :
  observer (after (deliver o e) w) = observer w ∧
  statusitem (after (deliver o e) w) = statusitem w.
Proof.
  destruct (handler_leaves_the_application_alone w e)
    as (_ & (Hobs & Hitem & _) & _).
  unfold after in *. unfold deliver.
  destruct (observers w !! o) as [ob|]; [|done].
  by destruct (watchdog.delivers ob).
Qed.

Lemma update_menu_tells (w : world) :
  icon_tells_state (after Upshot.update_menu w).
Proof.
  unfold icon_tells_state, after, Upshot.update_menu.
  destruct (statusitem w) eqn:Hs; cbn; [|by rewrite Hs].
  by destruct (observer w).
Qed.

(** X11: the status bar item follows [self.observer].  After launch,
    start, stop, restart and quit the item, if it has been built, shows the
    running icon exactly when an observer is held, and handling events does
    not disturb this.  The icon says nothing about the observer's thread. *)
Theorem icon_follows_the_observer (w : world) :
  icon_tells_state (after Upshot.applicationDidFinishLaunching_ w) ∧
  icon_tells_state (after Upshot.startListening_ w) ∧
  icon_tells_state (after Upshot.stopListening_ w) ∧
  icon_tells_state (after Upshot.restart_ w) ∧
  icon_tells_state (after Upshot.quit_ w) ∧
  (icon_tells_state w → ∀ o e, icon_tells_state (after (deliver o e) w)).
Proof.
  assert (Hstart : ∀ v, icon_tells_state (after Upshot.startListening_ v)).
  { intros v. unfold icon_tells_state, after. rewrite start_run. cbn.
    by destruct (statusitem v). }
  assert (Hstop : ∀ v, icon_tells_state (after Upshot.stopListening_ v)).
  { intros v. unfold icon_tells_state.
    destruct (stop_frame v) as (-> & -> & _). unfold paused_icon.
    by destruct (statusitem v). }
  refine (conj _ (conj _ (conj _ (conj _ (conj _ _))))).
  - apply (Hstart (set_statusitem (Some icon16) w)).
  - apply Hstart.
  - apply Hstop.
  - unfold after, Upshot.restart_.
    rewrite (bind_after_ok Upshot.stopListening_ (λ _, Upshot.startListening_) w tt)
      by apply stop_ok.
    apply Hstart.
  - unfold after, Upshot.quit_.
    rewrite (bind_after_ok Upshot.stopListening_ (λ _, modify (emit Terminate)) w tt)
      by apply stop_ok.
    apply Hstop.
  - intros Htells o e. unfold icon_tells_state.
    destruct (deliver_frame w o e) as [-> ->]. exact Htells.
Qed.

Lemma icon_follows_the_observer_witness :
  icon_tells_state
    (after (deliver 0 (FileCreatedEvent Demo.shot))
       (after Upshot.applicationDidFinishLaunching_ (Demo.fresh Demo.offline false))).
Proof.
  apply (icon_follows_the_observer
           (after Upshot.applicationDidFinishLaunching_ (Demo.fresh Demo.offline false))).
  reflexivity.
Defined.

(** * Properties of the preferences *)

Lemma get_pref_setdefault_lookup (m : gmap string Preferences.value)
    (k : string) (v : Preferences.value) (j : string) :
  snd (Preferences.get_pref k (Some v) true m) !! j =
    match m !! j with
    | Some x => Some x
    | None => if decide (j = k) then Some v else None
    end.
Proof.
  unfold Preferences.get_pref. destruct (m !! k) eqn:Hk; cbn.
  - destruct (m !! j) eqn:Hj; [done|]. case_decide; [congruence | done].
  - destruct (decide (j = k)) as [->|Hne].
    + by rewrite lookup_insert_eq, Hk.
    + rewrite lookup_insert_ne by done. by destruct (m !! j).
Qed.

Lemma fill_lookup (l : list (string * Preferences.value))
    (m : gmap string Preferences.value) (j : string) :
  foldl (λ m kv, snd (Preferences.get_pref (fst kv) (Some (snd kv)) true m)) m l !! j =
    match m !! j with
    | Some x => Some x
    | None => (list_to_map l : gmap string Preferences.value) !! j
    end.
Proof.
  revert m. induction l as [|[k v] l IH]; intros m; cbn [foldl].
  - unfold list_to_map. cbn [foldr]. rewrite lookup_empty. by destruct (m !! j).
  - rewrite IH, get_pref_setdefault_lookup. unfold list_to_map.
    cbn [fst snd foldr uncurry]. fold (list_to_map (M:=gmap string Preferences.value) l).
    destruct (m !! j); [done|]. case_decide as Hj.
    + subst. by rewrite lookup_insert_eq.
    + by rewrite lookup_insert_ne.
Qed.

Lemma set_defaults_store (s : Preferences.state) :
  Preferences.store (Preferences.set_defaults s) =
    Preferences.fill_defaults (Preferences.store s) ∧
  Preferences.window (Preferences.set_defaults s) = Preferences.window s ∧
  Preferences.delegate (Preferences.set_defaults s) = Preferences.delegate s ∧
  Preferences.bundle_url (Preferences.set_defaults s) = Preferences.bundle_url s.
Proof.
  unfold Preferences.set_defaults, Preferences.launch_at_startup.
  cbn zeta. case_bool_decide; [|done].
  destruct (Preferences.truthy _); [done|].
  by destruct (Preferences.item_in_login_items _).
Qed.

Lemma defaults_nodup : NoDup (Preferences.DEFAULTS.*1).
Proof. apply (bool_decide_unpack _). vm_compute. exact I. Qed.

(** X13: [set_defaults] completes the store and overwrites nothing: a
    preference that is set keeps its value, an unset preference that has a
    default takes it, no other key appears, and the window and the
    application are not touched.  Running it a second time changes no
    preference. *)
Theorem set_defaults_fills_the_store (s : Preferences.state) :
  let s' := Preferences.set_defaults s in
  (∀ k v, Preferences.store s !! k = Some v → Preferences.store s' !! k = Some v) ∧
  (∀ k d, (k, d) ∈ Preferences.DEFAULTS → Preferences.store s !! k = None →
          Preferences.store s' !! k = Some d) ∧
  (∀ k, k ∉ Preferences.DEFAULTS.*1 →
        Preferences.store s' !! k = Preferences.store s !! k) ∧
  Preferences.store (Preferences.set_defaults s') = Preferences.store s' ∧
  Preferences.window s' = Preferences.window s ∧
  Preferences.delegate s' = Preferences.delegate s.
Proof.
  cbn zeta. destruct (set_defaults_store s) as (Hst & Hwin & Happ & _).
  destruct (set_defaults_store (Preferences.set_defaults s)) as (Hst' & _).
  rewrite Hst', Hst. unfold Preferences.fill_defaults.
  assert (Hnodup := defaults_nodup).
  repeat split; try done.
  - intros k v Hk. by rewrite fill_lookup, Hk.
  - intros k d Hin Hk. rewrite fill_lookup, Hk.
    by apply elem_of_list_to_map_1.
  - intros k Hk. rewrite fill_lookup.
    destruct (Preferences.store s !! k); [done|].
    by apply not_elem_of_list_to_map_1.
  - apply map_eq. intros j. rewrite !fill_lookup.
    destruct (Preferences.store s !! j); [done|].
    by destruct (list_to_map _ !! j).
Qed.

Lemma set_defaults_fills_the_store_witness :
  let s := Preferences.State {[ "iconset" := Preferences.VStr "grayscale" ]} []
             "file:///Applications/UpShot.app"
             (Preferences.Outlets 0 0 0 0 0) (Demo.fresh Demo.online false) in
  Preferences.store (Preferences.set_defaults s) !! "iconset" =
    Some (Preferences.VStr "grayscale") ∧
  Preferences.store (Preferences.set_defaults s) !! "retinascale" =
    Some (Preferences.VBool false).
Proof.
  intros s. destruct (set_defaults_fills_the_store s) as (Hkeep & Hfill & _).
  split.
  - apply Hkeep. reflexivity.
  - apply Hfill; [|reflexivity].
    apply list_elem_of_In. vm_compute. tauto.
Defined.

Lemma item_listed (s : Preferences.state) :
  Preferences.item_in_login_items s ≠ None ↔
  Preferences.bundle_url s ∈ Preferences.login_items s.
Proof.
  unfold Preferences.item_in_login_items. rewrite fmap_None, list_find_None.
  rewrite Forall_forall. split.
  - intros Hsome. destruct (decide (Preferences.bundle_url s ∈ Preferences.login_items s));
      [done|]. destruct Hsome. intros u Hu ->. done.
  - intros Hin Hall. by apply (Hall _ Hin).
Qed.

Lemma delete_found_NoDup (l : list string) (u : string) (i : nat) :
  NoDup l → l !! i = Some u → u ∉ delete i l.
Proof.
  intros Hnd Hi. rewrite delete_take_drop.
  rewrite <- (take_drop_middle l i u Hi) in Hnd.
  apply NoDup_app in Hnd as (_ & Hleft & Hright).
  apply NoDup_cons in Hright as [Hright _].
  rewrite elem_of_app. intros [Hin|Hin]; [|done].
  apply (Hleft u Hin). by left.
Qed.

(** X14: [set_defaults] brings the login items in line with the
    ['launchAtStartup'] preference.  When the list already agrees with the
    preference it is left alone, so the application is never inserted a
    second time; when the preference is on and the application is not
    listed it is appended; and, the login items being distinct, the
    application is listed afterwards exactly when the preference is on. *)
Theorem set_defaults_syncs_login_items (s : Preferences.state) (b : bool) :
  Preferences.store (Preferences.set_defaults s) !! "launchAtStartup" =
    Some (Preferences.VBool b) →
  let url := Preferences.bundle_url s in
  let items := Preferences.login_items s in
  let items' := Preferences.login_items (Preferences.set_defaults s) in
  ((url ∈ items ↔ b = true) → items' = items) ∧
  (url ∉ items → b = true → items' = (items ++ [url])%list) ∧
  (NoDup items → (url ∈ items' ↔ b = true)).
Proof.
  intros Hpref. cbn zeta.
  destruct (set_defaults_store s) as (Hst & _). rewrite Hst in Hpref.
  unfold Preferences.set_defaults. cbn zeta.
  set (s1 := Preferences.set_store _ s).
  assert (Hread : fst (Preferences.get_pref "launchAtStartup" None false
                         (Preferences.store s1)) = Some (Preferences.VBool b)).
  { unfold Preferences.get_pref.
    change (Preferences.store s1)
      with (Preferences.fill_defaults (Preferences.store s)).
    by rewrite Hpref. }
  rewrite Hread. cbn [Preferences.truthy].
  assert (Hlisted : Preferences.item_in_login_items s1 ≠ None ↔
                    Preferences.bundle_url s ∈ Preferences.login_items s)
    by apply (item_listed s1).
  destruct (Preferences.item_in_login_items s1) as [i|] eqn:Hitem.
  - assert (Hin : Preferences.bundle_url s ∈ Preferences.login_items s)
      by (by apply Hlisted).
    assert (Hi : Preferences.login_items s !! i = Some (Preferences.bundle_url s)).
    { unfold Preferences.item_in_login_items in Hitem.
      apply fmap_Some in Hitem as ([i' u] & Hfind & ->).
      apply list_find_Some in Hfind as (Hi & -> & _). exact Hi. }
    rewrite (bool_decide_eq_true_2 (Some i ≠ None)) by done.
    destruct b.
    + rewrite bool_decide_eq_false_2 by (intros H; by apply H).
      cbv iota. split; [done | split; done].
    + rewrite bool_decide_eq_true_2 by congruence.
      cbv iota. unfold Preferences.launch_at_startup. rewrite Hitem. cbn.
      split; [|split].
      * intros [Himp _]. by specialize (Himp Hin).
      * done.
      * intros Hnd. split; [|done].
        intros Hin'. by destruct (delete_found_NoDup _ _ i Hnd Hi).
  - assert (Hout : Preferences.bundle_url s ∉ Preferences.login_items s).
    { intros Hin. by apply Hlisted in Hin. }
    rewrite (bool_decide_eq_false_2 (None ≠ None)) by (intros H; by apply H).
    destruct b.
    + rewrite bool_decide_eq_true_2 by congruence.
      cbv iota. cbn. split; [|split].
      * intros [_ Himp]. destruct Hout. by apply Himp.
      * done.
      * intros _. split; [done|]. intros _. apply elem_of_app. right. by left.
    + rewrite bool_decide_eq_false_2 by (intros H; by apply H).
      cbv iota. split; [done | split; [done|]].
      intros _. split; [done | done].
Qed.

Lemma set_defaults_syncs_login_items_witness :
  let s := Preferences.State ∅ ["file:///Applications/Mail.app"]
             "file:///Applications/UpShot.app"
             (Preferences.Outlets 0 0 0 0 0) (Demo.fresh Demo.online false) in
  Preferences.login_items (Preferences.set_defaults s) =
    ["file:///Applications/Mail.app"; "file:///Applications/UpShot.app"].
Proof.
  intros s.
  apply (set_defaults_syncs_login_items s true); [reflexivity | | reflexivity].
  intros Hin. vm_compute in Hin.
  apply list_elem_of_In in Hin. destruct Hin as [Hin|[]]. discriminate Hin.
Defined.

(** X15: [launch_at_startup(True)] followed by [launch_at_startup(False)]
    gives the login items back when the application was not listed, and
    [launch_at_startup(False)] alone changes nothing in that case. *)
Theorem login_item_added_then_removed (s : Preferences.state) :
  Preferences.bundle_url s ∉ Preferences.login_items s →
  Preferences.launch_at_startup false s = s ∧
  Preferences.bundle_url s ∈
    Preferences.login_items (Preferences.launch_at_startup true s) ∧
  Preferences.launch_at_startup false (Preferences.launch_at_startup true s) = s.
Proof.
  intros Hout.
  assert (Hnone : list_find (λ u, u = Preferences.bundle_url s)
                    (Preferences.login_items s) = None).
  { apply list_find_None, Forall_forall. intros u Hu ->. done. }
  repeat split.
  - unfold Preferences.launch_at_startup, Preferences.item_in_login_items.
    by rewrite Hnone.
  - cbn. apply elem_of_app. right. by left.
  - unfold Preferences.launch_at_startup, Preferences.item_in_login_items. cbn.
    rewrite (list_find_app_r _ _ _ Hnone). cbn.
    rewrite decide_True by done. cbn.
    unfold Preferences.set_login_items. cbn.
    rewrite delete_take_drop, take_app_length.
    rewrite drop_app_ge by lia.
    replace (S (length (Preferences.login_items s)) - length (Preferences.login_items s))%nat
      with 1%nat by lia.
    cbn. rewrite app_nil_r. by destruct s.
Qed.

Lemma login_item_added_then_removed_witness :
  let s := Preferences.State ∅ ["file:///Applications/Mail.app"]
             "file:///Applications/UpShot.app"
             (Preferences.Outlets 0 0 0 0 0) (Demo.fresh Demo.online false) in
  Preferences.launch_at_startup false (Preferences.launch_at_startup true s) = s.
Proof.
  intros s. apply (login_item_added_then_removed s).
  intros Hin. vm_compute in Hin.
  apply list_elem_of_In in Hin. destruct Hin as [Hin|[]]. discriminate Hin.
Defined.

Lemma read_lookup (key : string) (s : Preferences.state) :
  Preferences.read key s = Preferences.store s !! key.
Proof.
  unfold Preferences.read, Preferences.get_pref.
  by destruct (Preferences.store s !! key).
Qed.

Lemma launch_frame (b : bool) (s : Preferences.state) :
  Preferences.store (Preferences.launch_at_startup b s) = Preferences.store s ∧
  Preferences.window (Preferences.launch_at_startup b s) = Preferences.window s ∧
  Preferences.delegate (Preferences.launch_at_startup b s) = Preferences.delegate s ∧
  Preferences.bundle_url (Preferences.launch_at_startup b s) = Preferences.bundle_url s.
Proof.
  unfold Preferences.launch_at_startup. destruct b; [done|].
  by destruct (Preferences.item_in_login_items s).
Qed.

Lemma save_store (s : Preferences.state) :
  let win := Preferences.window s in
  let m : gmap string Preferences.value :=
    <["retinascale" := Preferences.VBool (Preferences.checked (Preferences.retinascale win))]>
      (<["copyonly" := Preferences.VBool (Preferences.checked (Preferences.copyonly win))]>
        (<["iconset" := Preferences.VStr
              (if Z.eqb (Preferences.iconset win) 1 then "grayscale" else "default")]>
          (<["launchAtStartup" :=
               Preferences.VBool (Preferences.checked (Preferences.launchAtStartup win))]>
            (Preferences.store s)))) in
  Preferences.window (Preferences.saveSettings_ s) = win ∧
  Preferences.store (Preferences.saveSettings_ s) =
    if Z.eqb (Preferences.url_select win) 0
    then <["share_format" := Preferences.VStr "long"]> m
    else if Z.eqb (Preferences.url_select win) 1
         then <["share_format" := Preferences.VStr "short"]> m
         else m.
Proof.
  cbn zeta. unfold Preferences.saveSettings_. cbn zeta.
  set (s1 := Preferences.set_pref "launchAtStartup" _ s).
  set (s2 := Preferences.launch_at_startup _ s1).
  destruct (launch_frame
              (Preferences.checked (Preferences.launchAtStartup (Preferences.window s1))) s1)
    as (Hst2 & Hw2 & _).
  fold s2 in Hst2, Hw2. change (Preferences.window s1) with (Preferences.window s) in Hw2.
  rewrite Hw2.
  set (s3 := if Z.eqb (Preferences.iconset (Preferences.window s)) 1
             then Preferences.set_pref "iconset" (Preferences.VStr "grayscale") s2
             else Preferences.set_pref "iconset" (Preferences.VStr "default") s2).
  assert (Hs3 : Preferences.window s3 = Preferences.window s ∧
                Preferences.store s3 =
                  <["iconset" := Preferences.VStr
                       (if Z.eqb (Preferences.iconset (Preferences.window s)) 1
                        then "grayscale" else "default")]> (Preferences.store s2)).
  { subst s3. by destruct (Z.eqb _ 1). }
  destruct Hs3 as [Hw3 Hst3].
  set (s4 := Preferences.set_delegate _ s3).
  change (Preferences.window s4) with (Preferences.window s3). rewrite Hw3.
  set (s5 := Preferences.set_pref "copyonly" _ s4).
  change (Preferences.window s5) with (Preferences.window s3). rewrite Hw3.
  set (s6 := Preferences.set_pref "retinascale" _ s5).
  change (Preferences.window s6) with (Preferences.window s3). rewrite Hw3.
  assert (Hst6 : Preferences.store s6 =
            <["retinascale" := Preferences.VBool
                (Preferences.checked (Preferences.retinascale (Preferences.window s)))]>
              (<["copyonly" := Preferences.VBool
                  (Preferences.checked (Preferences.copyonly (Preferences.window s)))]>
                (Preferences.store s3))) by done.
  rewrite Hst3, Hst2 in Hst6.
  change (Preferences.store s1)
    with (<["launchAtStartup" := Preferences.VBool
             (Preferences.checked (Preferences.launchAtStartup (Preferences.window s)))]>
            (Preferences.store s)) in Hst6.
  rewrite <- Hst6.
  destruct (Z.eqb (Preferences.url_select (Preferences.window s)) 0);
    [done | destruct (Z.eqb (Preferences.url_select (Preferences.window s)) 1); done].
Qed.

Lemma checked_state (b : bool) :
  Preferences.checked (if b then 1 else 0) = b.
Proof. by destruct b. Qed.

Lemma save_lookup (s : Preferences.state) :
  let win := Preferences.window s in
  let m := Preferences.store (Preferences.saveSettings_ s) in
  m !! "launchAtStartup" =
    Some (Preferences.VBool (Preferences.checked (Preferences.launchAtStartup win))) ∧
  m !! "iconset" =
    Some (Preferences.VStr
            (if Z.eqb (Preferences.iconset win) 1 then "grayscale" else "default")) ∧
  m !! "copyonly" =
    Some (Preferences.VBool (Preferences.checked (Preferences.copyonly win))) ∧
  m !! "retinascale" =
    Some (Preferences.VBool (Preferences.checked (Preferences.retinascale win))) ∧
  m !! "share_format" =
    if Z.eqb (Preferences.url_select win) 0 then Some (Preferences.VStr "long")
    else if Z.eqb (Preferences.url_select win) 1 then Some (Preferences.VStr "short")
    else Preferences.store s !! "share_format".
Proof.
  cbn zeta. destruct (save_store s) as [_ ->]. cbn zeta.
  destruct (Z.eqb (Preferences.url_select _) 0);
    [|destruct (Z.eqb (Preferences.url_select _) 1)];
    repeat split;
    repeat first [rewrite lookup_insert_eq | rewrite lookup_insert_ne by done];
    done.
Qed.

(** X16: what the window shows when it is refreshed right after a save.
    The launch box and the icon choice come back as they were saved, but the
    copy-only box shows the saved ['retinascale'] preference, because
    [updateDisplay] sets the state of [copyonly] twice, and the retina box
    is never refreshed.  A choice of URL format among the two cells comes
    back unchanged. *)
Theorem display_after_save (s : Preferences.state) :
  let win := Preferences.window s in
  let shown (z : Z) : Z := if Preferences.checked z then 1 else 0 in
  ∃ url,
    Preferences.updateDisplay (Preferences.saveSettings_ s) =
      Some (Preferences.set_window
              (Preferences.Outlets
                 (shown (Preferences.launchAtStartup win))
                 (if Z.eqb (Preferences.iconset win) 1 then 1 else 0)
                 (shown (Preferences.retinascale win))
                 (Preferences.retinascale win)
                 url)
              (Preferences.saveSettings_ s)) ∧
    (Preferences.url_select win = 0 ∨ Preferences.url_select win = 1 →
     url = Preferences.url_select win).
Proof.
  cbn zeta. unfold Preferences.updateDisplay. rewrite !read_lookup.
  destruct (save_lookup s) as (-> & -> & -> & -> & ->).
  destruct (save_store s) as [-> _]. cbn [Preferences.as_state mbind option_bind].
  eexists. split.
  - f_equal. f_equal. f_equal.
    by destruct (Z.eqb (Preferences.iconset _) 1).
  - intros [Hurl|Hurl]; rewrite Hurl; reflexivity.
Qed.

Lemma display_after_save_witness :
  let s := Preferences.State ∅ [] "file:///Applications/UpShot.app"
             (Preferences.Outlets 1 1 0 1 1) (Demo.fresh Demo.online false) in
  ∃ s', Preferences.updateDisplay (Preferences.saveSettings_ s) = Some s' ∧
        Preferences.window s' = Preferences.Outlets 1 1 1 1 1.
Proof.
  intros s. destruct (display_after_save s) as (url & Hshow & Hurl).
  eexists. split; [exact Hshow|]. cbn. f_equal. apply Hurl. by right.
Defined.

(** X17: opening the window and saving without touching anything is not
    the identity on the store.  ['copyonly'] takes the value that
    ['retinascale'] had, and ['retinascale'] takes the state of a check box
    that was never loaded from the store.  ['launchAtStartup'] is kept,
    ['iconset'] is kept if it was ['grayscale'] and becomes ['default']
    otherwise, and ['share_format'] is kept if it was ['long'] or
    ['short']. *)
Theorem save_after_display (s s1 : Preferences.state) :
  Preferences.updateDisplay s = Some s1 →
  let m := Preferences.store (Preferences.saveSettings_ s1) in
  m !! "copyonly" = Preferences.store s !! "retinascale" ∧
  m !! "retinascale" =
    Some (Preferences.VBool
            (Preferences.checked (Preferences.retinascale (Preferences.window s)))) ∧
  m !! "launchAtStartup" = Preferences.store s !! "launchAtStartup" ∧
  m !! "iconset" =
    Some (Preferences.VStr
            (if bool_decide (Preferences.store s !! "iconset" =
                             Some (Preferences.VStr "grayscale"))
             then "grayscale" else "default")) ∧
  (Preferences.store s !! "share_format" = Some (Preferences.VStr "long") ∨
   Preferences.store s !! "share_format" = Some (Preferences.VStr "short") →
   m !! "share_format" = Preferences.store s !! "share_format").
Proof.
  unfold Preferences.updateDisplay. rewrite !read_lookup.
  destruct (Preferences.store s !! "launchAtStartup") as [[l|?]|] eqn:Hl;
    cbn; try discriminate.
  destruct (Preferences.store s !! "copyonly") as [[c|?]|] eqn:Hc;
    cbn; try discriminate.
  destruct (Preferences.store s !! "retinascale") as [[r|?]|] eqn:Hr;
    cbn; try discriminate.
  intros [= <-].
  destruct (save_lookup
              (Preferences.set_window
                 (Preferences.Outlets (if l then 1 else 0)
                    (if bool_decide (Preferences.store s !! "iconset" =
                                     Some (Preferences.VStr "grayscale"))
                     then 1 else 0)
                    (if r then 1 else 0)
                    (Preferences.retinascale (Preferences.window s))
                    (if bool_decide (Preferences.store s !! "share_format" =
                                     Some (Preferences.VStr "long")) then 0
                     else if bool_decide (Preferences.store s !! "share_format" =
                                          Some (Preferences.VStr "short")) then 1
                     else Preferences.url_select (Preferences.window s))) s))
    as (Hl' & Hi' & Hc' & Hr' & Hu').
  cbn in Hl', Hi', Hc', Hr', Hu'.
  rewrite Hl', Hi', Hc', Hr', Hu', !checked_state.
  repeat split.
  - by destruct (bool_decide _).
  - intros [Hs|Hs]; rewrite Hs; reflexivity.
Qed.

Lemma save_after_display_witness :
  let s := Preferences.State
             {[ "launchAtStartup" := Preferences.VBool true;
                "copyonly" := Preferences.VBool false;
                "retinascale" := Preferences.VBool true ]}
             [] "file:///Applications/UpShot.app"
             (Preferences.Outlets 0 0 0 0 0) (Demo.fresh Demo.online false) in
  ∃ s1, Preferences.updateDisplay s = Some s1 ∧
        Preferences.store (Preferences.saveSettings_ s1) !! "copyonly" =
          Some (Preferences.VBool true) ∧
        Preferences.store (Preferences.saveSettings_ s1) !! "retinascale" =
          Some (Preferences.VBool false).
Proof.
  intros s. eexists. split; [reflexivity|].
  destruct (save_after_display s _ eq_refl) as (Hcopy & Hretina & _).
  split; [exact Hcopy | exact Hretina].
Defined.
